(** * go-bbs: the driver registry, the access facade and the user-article
      aggregation of [bbs.go], embedded in Rocq.

    The facade is a thin layer over a driver (a [Connector]).  Its functions
    are embedded as programs of a small monad that records, in order, every
    call the facade makes on its driver, and that can end in a Go panic.
    Values are modelled the way Go returns them: a function of Go type
    [(T, error)] yields a pair of a value and an [option error], the nil
    slice and the empty slice are both the empty list, the nil pointer is
    [None].  A driver method is a function of its arguments: the files
    behind the driver do not change while one facade call runs.  Calls of
    [log.Println] write to the process log only and are left out. *)

From Stdlib Require Import ZArith.
From stdpp Require Import base option list strings gmap.

Open Scope string_scope.
Open Scope list_scope.

(** ** Errors *)

(** A Go [error] value: the text its [Error()] method returns, and whether the
    value is a genuine missing-file condition (what [os.IsNotExist] would
    report of it).  The facade only ever looks at the text. *)
Record error : Type := mkError {
  Error : string;
  NotExist : bool
}.

(** [fmt.Errorf] with an already formatted message; the error it builds is
    not a file-system error. *)
Definition Errorf (msg : string) : error :=
  {| Error := msg; NotExist := false |}.

(** ** [strings.HasPrefix] and [strings.Contains] of the Go library *)

Fixpoint HasPrefix (s prefix : string) {struct prefix} : bool :=
  match prefix with
  | EmptyString => true
  | String c prefix' =>
      match s with
      | EmptyString => false
      | String d s' => if Ascii.eqb d c then HasPrefix s' prefix' else false
      end
  end.

Fixpoint Contains (s substr : string) : bool :=
  if HasPrefix s substr then true
  else match s with
       | EmptyString => false
       | String _ s' => Contains s' substr
       end.

(** ** Record contracts *)

Module BoardRecord.
Record t : Type := mk {
  BoardID : string;
  Title : string;
  IsClass : bool;
  ClassID : string;
  BM : list string
}.
End BoardRecord.

Module ArticleRecord.
(** [Modified] is a [time.Time], kept as seconds since the epoch. *)
Record t : Type := mk {
  Filename : string;
  Modified : Z;
  Recommend : Z;
  Date : string;
  Title : string;
  Money : Z;
  Owner : string
}.
End ArticleRecord.

Module UserArticleRecord.
(** Modelled from the spec: the type [userArticleRecord] and the interface
    [UserArticleRecord] are declared outside [bbs.go].  The spec gives a
    user-article record the attributes board id, title, owner and article
    filename; [GetUserArticleRecordFile] builds one from the four keys
    [board_id], [title], [owner] and [article_id], all strings. *)
Record t : Type := mk {
  board_id : string;
  title : string;
  owner : string;
  article_id : string
}.
End UserArticleRecord.

(** The dynamic values of a [map[string]interface{}] argument. *)
Inductive any : Type :=
  | AnyString (s : string)
  | AnyInt (z : Z)
  | AnyBool (b : bool).

(** ** Driver contracts *)

(** [WriteBoardConnector]; the three by-index methods are never called by
    the facade and are left out. *)
Record WriteBoardConnector : Type := {
  wbNewBoardRecord : gmap string any -> BoardRecord.t * option error;
  wbAddBoardRecordFileRecord : string -> BoardRecord.t -> option error
}.

(** [UserArticleConnector]; the write and append methods are never called by
    the facade and are left out. *)
Record UserArticleConnector : Type := {
  GetUserArticleRecordsPath : string -> string * option error;
  ReadUserArticleRecordFile : string -> list UserArticleRecord.t * option error
}.

(** [Connector], restricted to the methods behind the operations studied
    here (the user-record, favorite and raw-article methods follow the same
    resolve-then-read pattern and are left out).  A Go interface value also
    carries its dynamic type: the last two fields are what the type
    assertions [c.(WriteBoardConnector)] and [c.(UserArticleConnector)]
    find, [None] when the driver does not implement the capability. *)
Record Connector : Type := {
  ConnOpen : string -> option error;
  GetBoardRecordsPath : string * option error;
  ReadBoardRecordsFile : string -> list BoardRecord.t * option error;
  GetBoardArticleRecordsPath : string -> string * option error;
  GetBoardTreasureRecordsPath : string -> list string -> string * option error;
  ReadArticleRecordsFile : string -> list ArticleRecord.t * option error;
  asWriteBoardConnector : option WriteBoardConnector;
  asUserArticleConnector : option UserArticleConnector
}.

(** [DB]: the facade, bound to one connector. *)
Record DB : Type := { connector : Connector }.

(** ** The monad of facade programs *)

(** One entry per call the facade makes on its driver. *)
Inductive Call : Type :=
  | CallOpen (dataSourceName : string)
  | CallGetBoardRecordsPath
  | CallReadBoardRecordsFile (name : string)
  | CallGetBoardArticleRecordsPath (boardID : string)
  | CallGetBoardTreasureRecordsPath (boardID : string) (treasureID : list string)
  | CallReadArticleRecordsFile (name : string)
  | CallNewBoardRecord (args : gmap string any)
  | CallAddBoardRecordFileRecord (name : string) (brd : BoardRecord.t)
  | CallGetUserArticleRecordsPath (userID : string)
  | CallReadUserArticleRecordFile (name : string).

(** A Go run-time panic: a failed single-value type assertion names the
    interface that was asked for. *)
Inductive panic : Type :=
  | InterfaceConversion (iface : string).

Inductive outcome (A : Type) : Type :=
  | Returns (a : A)
  | Panics (p : panic).
Arguments Returns {A} a.
Arguments Panics {A} p.

(** A program yields the calls it made, oldest first, and how it ended. *)
Definition M (A : Type) : Type := (list Call * outcome A)%type.

Definition ret {A} (a : A) : M A := ([], Returns a).

Definition bind {A B} (m : M A) (k : A -> M B) : M B :=
  match m with
  | (tr, Returns a) => let '(tr', o) := k a in (tr ++ tr', o)
  | (tr, Panics p) => (tr, Panics p)
  end.

(** Calling a driver method: the call is recorded, its result returned. *)
Definition call {A} (c : Call) (result : A) : M A := ([c], Returns result).

Definition raise {A} (p : panic) : M A := ([], Panics p).

Definition calls {A} (m : M A) : list Call := fst m.
Definition result {A} (m : M A) : outcome A := snd m.

Declare Scope facade_scope.
Delimit Scope facade_scope with facade.
Notation "'let*' x ':=' m 'in' k" := (bind m (fun x => k))
  (at level 10, x pattern, m at level 100, k at level 200) : facade_scope.
Open Scope facade_scope.

(** The single-value type assertions; they panic when the driver lacks the
    capability. *)
Definition assertWriteBoardConnector (c : Connector) : M WriteBoardConnector :=
  match asWriteBoardConnector c with
  | Some w => ret w
  | None => raise (InterfaceConversion "WriteBoardConnector")
  end.

(** ** The registry *)

(** [drivers] is the process-wide table; it is passed explicitly. *)
Definition Register (drivers : gmap string Connector)
    (drivername : string) (c : Connector) : gmap string Connector :=
  <[drivername := c]> drivers.

Definition Open (drivers : gmap string Connector)
    (drivername dataSourceName : string) : M (option DB * option error) :=
  match drivers !! drivername with
  | None =>
      ret (None, Some (Errorf ("bbs: drivername: " +:+ drivername +:+ " not found")))
  | Some c =>
      let* err := call (CallOpen dataSourceName) (ConnOpen c dataSourceName) in
      match err with
      | Some e =>
          ret (None, Some (Errorf ("bbs: drivername: " +:+ drivername
                                     +:+ " open error: " +:+ Error e)))
      | None => ret (Some {| connector := c |}, None)
      end
  end.

(** ** The facade *)

Definition ReadBoardRecords (db : DB) : M (list BoardRecord.t * option error) :=
  let* (path, err) := call CallGetBoardRecordsPath (GetBoardRecordsPath (connector db)) in
  match err with
  | Some e => ret ([], Some e)
  | None =>
      let* (recs, err) := call (CallReadBoardRecordsFile path)
                        (ReadBoardRecordsFile (connector db) path) in
      match err with
      | Some e => ret ([], Some e)
      | None => ret (recs, None)
      end
  end.

Definition ReadBoardArticleRecordsFile (db : DB) (boardID : string)
    : M (list ArticleRecord.t * option error) :=
  let* (path, err) := call (CallGetBoardArticleRecordsPath boardID)
                    (GetBoardArticleRecordsPath (connector db) boardID) in
  match err with
  | Some e => ret ([], Some e)
  | None =>
      let* (recs, err) := call (CallReadArticleRecordsFile path)
                        (ReadArticleRecordsFile (connector db) path) in
      match err with
      | Some e =>
          if Contains (Error e) "no such file or directory"
          then ret ([], None)
          else ret ([], Some e)
      | None => ret (recs, None)
      end
  end.

Definition ReadBoardTreasureRecordsFile (db : DB) (boardID : string)
    (treasureID : list string) : M (list ArticleRecord.t * option error) :=
  let* (path, err) := call (CallGetBoardTreasureRecordsPath boardID treasureID)
                    (GetBoardTreasureRecordsPath (connector db) boardID treasureID) in
  match err with
  | Some e => ret ([], Some e)
  | None =>
      let* (recs, err) := call (CallReadArticleRecordsFile path)
                        (ReadArticleRecordsFile (connector db) path) in
      match err with
      | Some e => ret ([], Some e)
      | None => ret (recs, None)
      end
  end.

Definition NewBoardRecord (db : DB) (args : gmap string any)
    : M (BoardRecord.t * option error) :=
  let* w := assertWriteBoardConnector (connector db) in
  call (CallNewBoardRecord args) (wbNewBoardRecord w args).

Definition AddBoardRecord (db : DB) (brd : BoardRecord.t) : M (option error) :=
  let* (path, err) := call CallGetBoardRecordsPath (GetBoardRecordsPath (connector db)) in
  match err with
  | Some e => ret (Some e)
  | None =>
      let* w := assertWriteBoardConnector (connector db) in
      let* err := call (CallAddBoardRecordFileRecord path brd)
               (wbAddBoardRecordFileRecord w path brd) in
      match err with
      | Some e => ret (Some e)
      | None => ret None
      end
  end.

(** *** [GetUserArticleRecordFile] *)

(** The closure [shouldSkip] (lines 397-402). *)
Definition shouldSkip (boardID : string) : bool :=
  if String.eqb boardID "ALLPOST" then true else false.

(** The literal [userArticleRecord{...}] built for article [ar] of board [r]
    (lines 417-422). *)
Definition userArticleRecord (r : BoardRecord.t) (ar : ArticleRecord.t)
    : UserArticleRecord.t :=
  {| UserArticleRecord.board_id := BoardRecord.BoardID r;
     UserArticleRecord.title := ArticleRecord.Title ar;
     UserArticleRecord.owner := ArticleRecord.Owner ar;
     UserArticleRecord.article_id := ArticleRecord.Filename ar |}.

(** The inner loop [for _, ar := range ars] (lines 414-425); [recs] is the
    slice being appended to. *)
Fixpoint scanArticles (userID : string) (r : BoardRecord.t)
    (ars : list ArticleRecord.t) (recs : list UserArticleRecord.t)
    : list UserArticleRecord.t :=
  match ars with
  | [] => recs
  | ar :: ars' =>
      if String.eqb (ArticleRecord.Owner ar) userID
      then scanArticles userID r ars' (recs ++ [userArticleRecord r ar])
      else scanArticles userID r ars' recs
  end.

(** The outer loop [for _, r := range boardRecords] (lines 404-426) and the
    final [return recs, nil]. *)
Fixpoint scanBoards (db : DB) (userID : string)
    (boardRecords : list BoardRecord.t) (recs : list UserArticleRecord.t)
    : M (list UserArticleRecord.t * option error) :=
  match boardRecords with
  | [] => ret (recs, None)
  | r :: boardRecords' =>
      if shouldSkip (BoardRecord.BoardID r)
      then scanBoards db userID boardRecords' recs
      else
        let* (ars, err) := ReadBoardArticleRecordsFile db (BoardRecord.BoardID r) in
        match err with
        | Some e => ret ([], Some e)
        | None => scanBoards db userID boardRecords' (scanArticles userID r ars recs)
        end
  end.

(** Lines 391-428: the board scan that follows the cache lookup; [recs] is
    the slice the lookup left behind. *)
Definition aggregate (db : DB) (userID : string)
    (recs : list UserArticleRecord.t)
    : M (list UserArticleRecord.t * option error) :=
  let* (boardRecords, err) := ReadBoardRecords db in
  match err with
  | Some e => ret ([], Some e)
  | None => scanBoards db userID boardRecords recs
  end.

Definition GetUserArticleRecordFile (db : DB) (userID : string)
    : M (list UserArticleRecord.t * option error) :=
  match asUserArticleConnector (connector db) with
  | Some uac =>
      let* (path, err) := call (CallGetUserArticleRecordsPath userID)
                            (GetUserArticleRecordsPath uac userID) in
      match err with
      | Some e => ret ([], Some e)
      | None =>
          let* (recs, err) := call (CallReadUserArticleRecordFile path)
                                (ReadUserArticleRecordFile uac path) in
          match err with
          | Some e => ret ([], Some e)
          | None =>
              if negb (Nat.eqb (length recs) 0)
              then ret (recs, None)
              else aggregate db userID recs
          end
      end
  | None => aggregate db userID []
  end.

(** ** Notions the statements use *)

(** The facade's test for a not-found error (line 268). *)
Definition isNotFound (e : error) : bool :=
  Contains (Error e) "no such file or directory".

(** The cache gives nothing: the driver has no [UserArticleConnector]
    capability, or the cached list was resolved and read without error and
    has length zero. *)
Definition cacheUnsupportedOrEmpty (db : DB) (userID : string) : bool :=
  match asUserArticleConnector (connector db) with
  | None => true
  | Some uac =>
      match GetUserArticleRecordsPath uac userID with
      | (path, None) =>
          match ReadUserArticleRecordFile uac path with
          | (recs, None) => Nat.eqb (length recs) 0
          | (_, Some _) => false
          end
      | (_, Some _) => false
      end
  end.

(** The calls of the cache lookup of a driver that has the capability and
    resolves the path. *)
Definition cacheCalls (db : DB) (userID : string) : list Call :=
  match asUserArticleConnector (connector db) with
  | None => []
  | Some uac =>
      [CallGetUserArticleRecordsPath userID;
       CallReadUserArticleRecordFile (fst (GetUserArticleRecordsPath uac userID))]
  end.

(** The records of the board scan in the spec's words: for each board in
    enumeration order whose id is not ALLPOST, for each article of its index
    in order whose owner is [userID], one record. *)
Definition synthesized (userID : string)
    (index : string -> list ArticleRecord.t) (boards : list BoardRecord.t)
    : list UserArticleRecord.t :=
  concat (map (fun r =>
    if decide (BoardRecord.BoardID r = "ALLPOST") then []
    else map (userArticleRecord r)
           (filter (fun ar => ArticleRecord.Owner ar = userID)
              (index (BoardRecord.BoardID r)))) boards).

(** What a call made during [GetUserArticleRecordFile] may be: never the
    resolution of the ALLPOST index, and an index read only of a path that
    the driver resolved for a board other than ALLPOST. *)
Definition scanCall (db : DB) (c : Call) : Prop :=
  match c with
  | CallGetBoardArticleRecordsPath boardID => boardID <> "ALLPOST"
  | CallReadArticleRecordsFile name =>
      exists boardID, boardID <> "ALLPOST"
        /\ GetBoardArticleRecordsPath (connector db) boardID = (name, None)
  | CallGetBoardRecordsPath | CallReadBoardRecordsFile _
  | CallGetUserArticleRecordsPath _ | CallReadUserArticleRecordFile _ => True
  | CallOpen _ | CallGetBoardTreasureRecordsPath _ _
  | CallNewBoardRecord _ | CallAddBoardRecordFileRecord _ _ => False
  end.

(** A call that touches the board records or a board's article index. *)
Definition boardCall (c : Call) : bool :=
  match c with
  | CallGetBoardRecordsPath | CallReadBoardRecordsFile _
  | CallGetBoardArticleRecordsPath _ | CallReadArticleRecordsFile _ => true
  | _ => false
  end.

(** ** A small installation, for running the facade *)

Module Fixture.

Definition board (id : string) : BoardRecord.t :=
  BoardRecord.mk id ("About " +:+ id) false "" [].

Definition article (filename owner : string) : ArticleRecord.t :=
  ArticleRecord.mk filename 0 0 "10/30" ("Re: " +:+ filename) 0 owner.

(** What [os.Open] reports of a path that does not exist. *)
Definition enoent (name : string) : error :=
  {| Error := "open " +:+ name +:+ ": no such file or directory";
     NotExist := true |}.

(** A truncated index file. *)
Definition badFormat : error :=
  {| Error := "unexpected EOF"; NotExist := false |}.

(** A missing file reported in the words of [os.ErrNotExist]. *)
Definition errNotExist : error :=
  {| Error := "file does not exist"; NotExist := true |}.

(** A damaged archive whose report happens to quote a missing member. *)
Definition damaged : error :=
  {| Error := "bad archive: no such file or directory entry"; NotExist := false |}.

Definition boards : list BoardRecord.t :=
  [board "A"; board "B"; board "ALLPOST"; board "C"].

Definition dirOf (boardID : string) : string :=
  "/home/bbs/boards/" +:+ boardID +:+ "/.DIR".

(** Boards A, B and ALLPOST have an index, C was never posted to, the
    index of D and E cannot be decoded. *)
Definition files (name : string) : list ArticleRecord.t * option error :=
  if String.eqb name (dirOf "A")
  then ([article "M.1" "U"; article "M.2" "V"], None)
  else if String.eqb name (dirOf "B") then ([article "M.3" "U"], None)
  else if String.eqb name (dirOf "ALLPOST") then ([article "M.4" "U"], None)
  else if String.eqb name (dirOf "D") then ([], Some errNotExist)
  else if String.eqb name (dirOf "E") then ([], Some damaged)
  else ([], Some (enoent name)).

(** The article index of a board as the facade sees it: a missing file
    is an empty index. *)
Definition indexOf (boardID : string) : list ArticleRecord.t :=
  fst (files (dirOf boardID)).

(** The same installation with the index of board B truncated. *)
Definition filesBroken (name : string) : list ArticleRecord.t * option error :=
  if String.eqb name (dirOf "B") then ([], Some badFormat) else files name.

Definition driver (files : string -> list ArticleRecord.t * option error)
    (wb : option WriteBoardConnector) (uac : option UserArticleConnector)
    : Connector :=
  {| ConnOpen := fun dsn =>
       if String.eqb dsn "/home/bbs" then None
       else Some (Errorf ("no BBS under " +:+ dsn));
     GetBoardRecordsPath := ("/home/bbs/.BRD", None);
     ReadBoardRecordsFile := fun name =>
       if String.eqb name "/home/bbs/.BRD" then (boards, None)
       else ([], Some (enoent name));
     GetBoardArticleRecordsPath := fun boardID => (dirOf boardID, None);
     GetBoardTreasureRecordsPath := fun boardID treasureID =>
       (foldl (fun p t => p +:+ "/" +:+ t) ("/home/bbs/man/boards/" +:+ boardID)
          treasureID +:+ "/.DIR", None);
     ReadArticleRecordsFile := files;
     asWriteBoardConnector := wb;
     asUserArticleConnector := uac |}.

(** A cache whose file for every user holds [recs]. *)
Definition cacheOf (recs : list UserArticleRecord.t) : UserArticleConnector :=
  {| GetUserArticleRecordsPath := fun userID =>
       ("/home/bbs/home/" +:+ userID +:+ "/.posts", None);
     ReadUserArticleRecordFile := fun _ => (recs, None) |}.

(** A cache whose files do not exist. *)
Definition cacheMissing : UserArticleConnector :=
  {| GetUserArticleRecordsPath := fun userID =>
       ("/home/bbs/home/" +:+ userID +:+ "/.posts", None);
     ReadUserArticleRecordFile := fun name => ([], Some (enoent name)) |}.

Definition stale : UserArticleRecord.t :=
  UserArticleRecord.mk "ALLPOST" "Re: M.9" "U" "M.9".

Definition plain : DB := {| connector := driver files None None |}.
Definition broken : DB := {| connector := driver filesBroken None None |}.
Definition cached : DB :=
  {| connector := driver files None (Some (cacheOf [stale])) |}.
Definition cachedEmpty : DB :=
  {| connector := driver files None (Some (cacheOf [])) |}.
Definition cachedMissing : DB :=
  {| connector := driver files None (Some cacheMissing) |}.

(** The posts of user U, ALLPOST left aside. *)
Definition postsOfU : list UserArticleRecord.t :=
  [UserArticleRecord.mk "A" "Re: M.1" "U" "M.1";
   UserArticleRecord.mk "B" "Re: M.3" "U" "M.3"].

Definition registry : gmap string Connector :=
  Register ∅ "pttbbs" (driver files None None).

End Fixture.

(** ** The rest of the facade *)

(** *** The by-index board operations (lines 350-364) *)

(** The Go index is a [uint] that is never computed with; [brd] is a pointer
    and may be nil. *)
Definition UpdateBoardRecord (db : DB) (index : N) (brd : option BoardRecord.t)
    : M (option error) :=
  ret (Some (Errorf "not implement")).

Definition ReadBoardRecord (db : DB) (index : N)
    : M (option BoardRecord.t * option error) :=
  ret (None, Some (Errorf "not implement")).

Definition RemoveBoardRecord (db : DB) (index : N) : M (option error) :=
  ret (Some (Errorf "not implement")).

(** *** User records, favorites and raw article files *)

Module UserRecord.
(** [LastLogin] is a [time.Time], kept as seconds since the epoch. *)
Record t : Type := mk {
  UserID : string;
  HashedPassword : string;
  VerifyPassword : string -> option error;
  Nickname : string;
  RealName : string;
  NumLoginDays : Z;
  NumPosts : Z;
  Money : Z;
  LastLogin : Z;
  LastHost : string
}.
End UserRecord.

Inductive FavoriteType : Type :=
  | FavoriteTypeBoard
  | FavoriteTypeFolder
  | FavoriteTypeLine.

Module FavoriteRecord.
(** [Records] is the list of children of a folder. *)
#[warnings="-register-all"] Inductive t : Type :=
  | mk (Title : string) (Kind : FavoriteType) (BoardID : string) (Records : list t).
End FavoriteRecord.

(** The methods of [Connector] that the readers below call.  In Go they are
    reached through [db.connector] like the others; here they form a record
    of their own, and a reader takes it in place of [db]. *)
Record RestConnector : Type := {
  GetUserRecordsPath : string * option error;
  ReadUserRecordsFile : string -> list UserRecord.t * option error;
  GetUserFavoriteRecordsPath : string -> string * option error;
  ReadUserFavoriteRecordsFile : string -> list FavoriteRecord.t * option error;
  GetBoardArticleFilePath : string -> string -> string * option error;
  GetBoardTreasureFilePath : string -> list string -> string -> string * option error;
  ConnReadBoardArticleFile : string -> list Byte.byte * option error
}.

Inductive RestCall : Type :=
  | CallGetUserRecordsPath
  | CallReadUserRecordsFile (name : string)
  | CallGetUserFavoriteRecordsPath (userID : string)
  | CallReadUserFavoriteRecordsFile (name : string)
  | CallGetBoardArticleFilePath (boardID filename : string)
  | CallGetBoardTreasureFilePath (boardID : string) (treasureID : list string)
      (name : string)
  | CallReadBoardArticleFile (name : string).

(** These readers hold no type assertion and cannot panic: a program yields
    the calls it made, oldest first, and its value. *)
Definition R (A : Type) : Type := (list RestCall * A)%type.

Definition rret {A} (a : A) : R A := ([], a).

Definition rbind {A B} (m : R A) (k : A -> R B) : R B :=
  let '(tr, a) := m in let '(tr', b) := k a in (tr ++ tr', b).

Definition rcall {A} (c : RestCall) (v : A) : R A := ([c], v).

Declare Scope reader_scope.
Delimit Scope reader_scope with reader.
Notation "'let*' x ':=' m 'in' k" := (rbind m (fun x => k))
  (at level 10, x pattern, m at level 100, k at level 200) : reader_scope.

Definition ReadUserRecords (c : RestConnector)
    : R (list UserRecord.t * option error) :=
  (let* (path, err) := rcall CallGetUserRecordsPath (GetUserRecordsPath c) in
   match err with
   | Some e => rret ([], Some e)
   | None =>
       let* (userRecs, err) := rcall (CallReadUserRecordsFile path)
                                 (ReadUserRecordsFile c path) in
       match err with
       | Some e => rret ([], Some e)
       | None => rret (userRecs, None)
       end
   end)%reader.

Definition ReadUserFavoriteRecords (c : RestConnector) (userID : string)
    : R (list FavoriteRecord.t * option error) :=
  (let* (path, err) := rcall (CallGetUserFavoriteRecordsPath userID)
                         (GetUserFavoriteRecordsPath c userID) in
   match err with
   | Some e => rret ([], Some e)
   | None =>
       let* (recs, err) := rcall (CallReadUserFavoriteRecordsFile path)
                             (ReadUserFavoriteRecordsFile c path) in
       match err with
       | Some e => rret ([], Some e)
       | None => rret (recs, None)
       end
   end)%reader.

Definition ReadBoardArticleFile (c : RestConnector) (boardID filename : string)
    : R (list Byte.byte * option error) :=
  (let* (path, err) := rcall (CallGetBoardArticleFilePath boardID filename)
                         (GetBoardArticleFilePath c boardID filename) in
   match err with
   | Some e => rret ([], Some e)
   | None =>
       let* (recs, err) := rcall (CallReadBoardArticleFile path)
                             (ConnReadBoardArticleFile c path) in
       match err with
       | Some e => rret ([], Some e)
       | None => rret (recs, None)
       end
   end)%reader.

Definition ReadBoardTreasureFile (c : RestConnector) (boardID : string)
    (treasuresID : list string) (filename : string)
    : R (list Byte.byte * option error) :=
  (let* (path, err) := rcall (CallGetBoardTreasureFilePath boardID treasuresID filename)
                         (GetBoardTreasureFilePath c boardID treasuresID filename) in
   match err with
   | Some e => rret ([], Some e)
   | None =>
       let* (recs, err) := rcall (CallReadBoardArticleFile path)
                             (ConnReadBoardArticleFile c path) in
       match err with
       | Some e => rret ([], Some e)
       | None => rret (recs, None)
       end
   end)%reader.

(** ** Further notions the statements use *)

(** What the facade makes of the index of a board, read off the driver: the
    decoded list, or nothing when the decode fails. *)
Definition decodedIndex (db : DB) (boardID : string) : list ArticleRecord.t :=
  let '(path, _) := GetBoardArticleRecordsPath (connector db) boardID in
  match ReadArticleRecordsFile (connector db) path with
  | (recs, None) => recs
  | (_, Some _) => []
  end.

(** The index of a board as the facade's own reader returns it. *)
Definition facadeIndex (db : DB) (boardID : string) : list ArticleRecord.t :=
  match result (ReadBoardArticleRecordsFile db boardID) with
  | Returns (ars, _) => ars
  | Panics _ => []
  end.

(** The calls of a scan that reads every board: two per board other than
    ALLPOST, in enumeration order. *)
Definition scanCalls (db : DB) (boards : list BoardRecord.t) : list Call :=
  concat (map (fun r =>
    if decide (BoardRecord.BoardID r = "ALLPOST") then []
    else [CallGetBoardArticleRecordsPath (BoardRecord.BoardID r);
          CallReadArticleRecordsFile
            (fst (GetBoardArticleRecordsPath (connector db) (BoardRecord.BoardID r)))])
    boards).

(** ** A second installation: a driver that can write boards, users, files *)

Module Sample.

(** A board-records file that cannot be written to. *)
Definition readOnly : error :=
  {| Error := "open /home/bbs/.BRD: permission denied"; NotExist := false |}.

Definition writer : WriteBoardConnector :=
  {| wbNewBoardRecord := fun args =>
       match args !! "id" with
       | Some (AnyString id) => (Fixture.board id, None)
       | _ => (Fixture.board "", Some (Errorf "board id missing"))
       end;
     wbAddBoardRecordFileRecord := fun name brd =>
       if String.eqb name "/home/bbs/.BRD" then None else Some readOnly |}.

Definition writable : DB :=
  {| connector := Fixture.driver Fixture.files (Some writer) None |}.

(** A driver whose board-records path cannot be resolved, and whose index
    paths cannot either; the reports quote a missing directory. *)
Definition noHome : error :=
  {| Error := "stat /home/bbs: no such file or directory"; NotExist := true |}.

Definition homeless (wb : option WriteBoardConnector)
    (uac : option UserArticleConnector) : DB :=
  {| connector :=
       {| ConnOpen := fun _ => None;
          GetBoardRecordsPath := ("", Some noHome);
          ReadBoardRecordsFile := fun _ => (Fixture.boards, None);
          GetBoardArticleRecordsPath := fun _ => ("", Some noHome);
          GetBoardTreasureRecordsPath := fun _ _ => ("", Some noHome);
          ReadArticleRecordsFile := Fixture.files;
          asWriteBoardConnector := wb;
          asUserArticleConnector := uac |} |}.

(** A cache whose path cannot be resolved. *)
Definition cacheNoPath : UserArticleConnector :=
  {| GetUserArticleRecordsPath := fun _ => ("", Some noHome);
     ReadUserArticleRecordFile := fun _ => ([Fixture.stale], None) |}.

(** A driver that wraps the decode error of a missing index with context. *)
Definition filesWrapped (name : string) : list ArticleRecord.t * option error :=
  match Fixture.files name with
  | (recs, Some e) =>
      (recs, Some (Errorf ("pttbbs: read " +:+ name +:+ ": " +:+ Error e +:+ " (skipped)")))
  | ok => ok
  end.

Definition wrapped : DB :=
  {| connector := Fixture.driver filesWrapped None None |}.

(** Board A has an archive folder x holding one article. *)
Definition filesArchive (name : string) : list ArticleRecord.t * option error :=
  if String.eqb name "/home/bbs/man/boards/A/x/.DIR"
  then ([Fixture.article "M.0" "U"], None)
  else Fixture.files name.

Definition archived : DB :=
  {| connector := Fixture.driver filesArchive None None |}.

(** A board-records file that lists board B twice. *)
Definition doubled : DB :=
  {| connector :=
       {| ConnOpen := fun _ => None;
          GetBoardRecordsPath := ("/home/bbs/.BRD", None);
          ReadBoardRecordsFile := fun _ => ([Fixture.board "B"; Fixture.board "B"], None);
          GetBoardArticleRecordsPath := fun boardID => (Fixture.dirOf boardID, None);
          GetBoardTreasureRecordsPath := fun _ _ => ("", Some noHome);
          ReadArticleRecordsFile := Fixture.files;
          asWriteBoardConnector := None;
          asUserArticleConnector := None |} |}.

(** An installation with a board list and an index-path resolution of its
    own, over the files of the first installation. *)
Definition site (boards : list BoardRecord.t)
    (resolve : string -> string * option error) : DB :=
  {| connector :=
       {| ConnOpen := fun _ => None;
          GetBoardRecordsPath := ("/home/bbs/.BRD", None);
          ReadBoardRecordsFile := fun _ => (boards, None);
          GetBoardArticleRecordsPath := resolve;
          GetBoardTreasureRecordsPath := fun _ _ => ("", Some noHome);
          ReadArticleRecordsFile := Fixture.files;
          asWriteBoardConnector := None;
          asUserArticleConnector := None |} |}.

(** Board E, whose index is damaged, listed between A and B. *)
Definition withDamaged : DB :=
  site [Fixture.board "A"; Fixture.board "E"; Fixture.board "B"]
    (fun boardID => (Fixture.dirOf boardID, None)).

(** Board D, whose missing index is reported as "file does not exist",
    listed between A and B. *)
Definition withUnreported : DB :=
  site [Fixture.board "A"; Fixture.board "D"; Fixture.board "B"]
    (fun boardID => (Fixture.dirOf boardID, None)).

Definition invalidId : error :=
  {| Error := "invalid board id"; NotExist := false |}.

(** A board with an empty id, for which no index path can be resolved,
    listed between A and B. *)
Definition withInvalid : DB :=
  site [Fixture.board "A"; Fixture.board ""; Fixture.board "B"]
    (fun boardID => if String.eqb boardID "" then ("", Some invalidId)
                    else (Fixture.dirOf boardID, None)).

Definition user (id : string) : UserRecord.t :=
  UserRecord.mk id "x" (fun pw => if String.eqb pw "secret" then None
                                  else Some (Errorf "wrong password"))
    id id 1 2 3 0 "127.0.0.1".

Definition favorites : list FavoriteRecord.t :=
  [FavoriteRecord.mk "A" FavoriteTypeBoard "A" [];
   FavoriteRecord.mk "mine" FavoriteTypeFolder ""
     [FavoriteRecord.mk "B" FavoriteTypeBoard "B" []]].

(** Users SYSOP and U exist, U has favorites, board A holds the file M.1 and
    the archived file M.0 under the folder x. *)
Definition rest : RestConnector :=
  {| GetUserRecordsPath := ("/home/bbs/.PASSWDS", None);
     ReadUserRecordsFile := fun name =>
       if String.eqb name "/home/bbs/.PASSWDS" then ([user "SYSOP"; user "U"], None)
       else ([], Some (Fixture.enoent name));
     GetUserFavoriteRecordsPath := fun userID =>
       if String.eqb userID "" then ("", Some (Errorf "empty user id"))
       else ("/home/bbs/home/" +:+ userID +:+ "/.fav", None);
     ReadUserFavoriteRecordsFile := fun name =>
       if String.eqb name "/home/bbs/home/U/.fav" then (favorites, None)
       else ([], Some (Fixture.enoent name));
     GetBoardArticleFilePath := fun boardID filename =>
       if String.eqb filename "" then ("", Some (Errorf "empty file name"))
       else ("/home/bbs/boards/" +:+ boardID +:+ "/" +:+ filename, None);
     GetBoardTreasureFilePath := fun boardID treasureID name =>
       if String.eqb name "" then ("", Some (Errorf "empty file name"))
       else (foldl (fun p t => p +:+ "/" +:+ t) ("/home/bbs/man/boards/" +:+ boardID)
               treasureID +:+ "/" +:+ name, None);
     ConnReadBoardArticleFile := fun name =>
       if String.eqb name "/home/bbs/boards/A/M.1" then ([Byte.x68; Byte.x69], None)
       else if String.eqb name "/home/bbs/man/boards/A/x/M.0" then ([Byte.x6f; Byte.x6b], None)
       else ([], Some (Fixture.enoent name)) |}.

(** The same driver without a password file location. *)
Definition restNoPasswd : RestConnector :=
  {| GetUserRecordsPath := ("", Some noHome);
     ReadUserRecordsFile := ReadUserRecordsFile rest;
     GetUserFavoriteRecordsPath := GetUserFavoriteRecordsPath rest;
     ReadUserFavoriteRecordsFile := ReadUserFavoriteRecordsFile rest;
     GetBoardArticleFilePath := GetBoardArticleFilePath rest;
     GetBoardTreasureFilePath := GetBoardTreasureFilePath rest;
     ConnReadBoardArticleFile := ConnReadBoardArticleFile rest |}.

End Sample.

(** ** The monad: basic facts *)

Lemma bind_returns {A B} (m : M A) (k : A -> M B) tr a :
  m = (tr, Returns a) ->
  bind m k = (tr ++ calls (k a), result (k a)).
Proof. intros ->. unfold bind, calls, result. by destruct (k a). Qed.

Lemma bind_panics {A B} (m : M A) (k : A -> M B) tr p :
  m = (tr, Panics p) -> bind m k = (tr, Panics p).
Proof. by intros ->. Qed.

Lemma bind_call {A B} (c : Call) (v : A) (k : A -> M B) :
  bind (call c v) k = (c :: calls (k v), result (k v)).
Proof. unfold call. by rewrite (bind_returns _ _ [c] v). Qed.

Lemma M_eta {A} (m : M A) : m = (calls m, result m).
Proof. by destruct m. Qed.

Lemma bind_result {A B} (m : M A) (k : A -> M B) a :
  result m = Returns a -> result (bind m k) = result (k a).
Proof.
  intros H. rewrite (M_eta m), H.
  by rewrite (bind_returns _ _ (calls m) a).
Qed.

Lemma bind_calls {A B} (m : M A) (k : A -> M B) a :
  result m = Returns a -> calls (bind m k) = calls m ++ calls (k a).
Proof.
  intros H. rewrite (M_eta m) at 1. rewrite H.
  by rewrite (bind_returns _ _ (calls m) a).
Qed.

(** ** [strings.Contains]: what it decides *)

Lemma HasPrefix_spec s p :
  HasPrefix s p = true <-> exists t, s = p +:+ t.
Proof.
  revert s. induction p as [|c p IH]; intros s; simpl.
  - split; [intros _; by exists s | done].
  - destruct s as [|d s].
    + split; [done | intros [t Ht]; discriminate].
    + destruct (Ascii.eqb_spec d c) as [->|Hne].
      * rewrite IH. split; intros [t Ht]; exists t.
        -- by rewrite Ht.
        -- by injection Ht.
      * split; [done | intros [t Ht]; by injection Ht].
Qed.

Lemma Contains_spec s sub :
  Contains s sub = true <-> exists a b, s = a +:+ sub +:+ b.
Proof.
  induction s as [|c s IH]; simpl.
  - destruct (HasPrefix "" sub) eqn:Hp.
    + apply HasPrefix_spec in Hp as [t Ht]. split; [|done].
      intros _. by exists "", t.
    + split; [done|]. intros (a & b & Hab).
      destruct a; simpl in Hab; [|discriminate].
      assert (HasPrefix "" sub = true) by (apply HasPrefix_spec; eauto).
      congruence.
  - destruct (HasPrefix (String c s) sub) eqn:Hp.
    + apply HasPrefix_spec in Hp as [t Ht]. split; [|done].
      intros _. by exists "", t.
    + rewrite IH. split.
      * intros (a & b & ->). by exists (String c a), b.
      * intros (a & b & Hab). destruct a as [|c' a]; simpl in Hab.
        { assert (HasPrefix (String c s) sub = true)
            by (apply HasPrefix_spec; eauto).
          congruence. }
        injection Hab as _ ->. eauto.
Qed.

(** ** The facade's readers *)

Section Readers.
Variable db : DB.

(** What the board-index reader does once the path is resolved and the
    decode has failed. *)
Lemma ReadBoardArticleRecordsFile_decode_error boardID path recs e :
  GetBoardArticleRecordsPath (connector db) boardID = (path, None) ->
  ReadArticleRecordsFile (connector db) path = (recs, Some e) ->
  ReadBoardArticleRecordsFile db boardID =
    ([CallGetBoardArticleRecordsPath boardID; CallReadArticleRecordsFile path],
     Returns (if Contains (Error e) "no such file or directory"
              then ([], None) else ([], Some e))).
Proof.
  intros Hpath Hread. unfold ReadBoardArticleRecordsFile.
  rewrite bind_call, Hpath, bind_call, Hread.
  by destruct (Contains _ _).
Qed.

Lemma ReadBoardArticleRecordsFile_returns boardID :
  exists v, result (ReadBoardArticleRecordsFile db boardID) = Returns v.
Proof.
  unfold ReadBoardArticleRecordsFile. rewrite bind_call.
  destruct (GetBoardArticleRecordsPath _ _) as [path [e|]]; [by eexists|].
  rewrite bind_call.
  destruct (ReadArticleRecordsFile _ _) as [recs [e|]]; [|by eexists].
  destruct (Contains _ _); by eexists.
Qed.

End Readers.

(** ** The board article index and the treasure index *)

(** C6, as stated, fails in both halves.  The index of board D does not
    exist and the decode says so with the text "file does not exist": the
    error is returned, not an empty list with a nil error.  The index of
    board E exists and is damaged, an error other than not-found, whose text
    quotes "no such file or directory": it is not returned, the result is an
    empty list with a nil error. *)
Lemma ReadBoardArticleRecordsFile_not_found_misjudged :
  (ReadArticleRecordsFile (connector Fixture.plain) (Fixture.dirOf "D")
     = ([], Some Fixture.errNotExist)
   /\ NotExist Fixture.errNotExist = true
   /\ result (ReadBoardArticleRecordsFile Fixture.plain "D")
      = Returns ([], Some Fixture.errNotExist)
   /\ result (ReadBoardArticleRecordsFile Fixture.plain "D") <> Returns ([], None))
  /\ (ReadArticleRecordsFile (connector Fixture.plain) (Fixture.dirOf "E")
        = ([], Some Fixture.damaged)
      /\ NotExist Fixture.damaged = false
      /\ result (ReadBoardArticleRecordsFile Fixture.plain "E") = Returns ([], None)
      /\ result (ReadBoardArticleRecordsFile Fixture.plain "E")
         <> Returns ([], Some Fixture.damaged)).
Proof.
  split; (split; [reflexivity|]); (split; [reflexivity|]);
    (split; [reflexivity|]); intros H; vm_compute in H; discriminate H.
Qed.

(** C6, amended: when the path of a board's article index resolves and the
    decode fails, [ReadBoardArticleRecordsFile] makes exactly the two driver
    calls, and the claim holds exactly where the text of the error agrees
    with its kind.  For a not-found error, the result is the empty list and
    a nil error if and only if the text of the error contains "no such file
    or directory" (the words of the operating system); for any other error,
    that error is returned, with a nil list, if and only if its text does
    not contain them. *)
Theorem ReadBoardArticleRecordsFile_not_found_tolerated
    (db : DB) (boardID path : string) (recs : list ArticleRecord.t) (e : error) :
  GetBoardArticleRecordsPath (connector db) boardID = (path, None) ->
  ReadArticleRecordsFile (connector db) path = (recs, Some e) ->
  calls (ReadBoardArticleRecordsFile db boardID) =
    [CallGetBoardArticleRecordsPath boardID; CallReadArticleRecordsFile path]
  /\ (NotExist e = true ->
      (result (ReadBoardArticleRecordsFile db boardID) = Returns ([], None)
       <-> exists a b, Error e = a +:+ "no such file or directory" +:+ b))
  /\ (NotExist e = false ->
      (result (ReadBoardArticleRecordsFile db boardID) = Returns ([], Some e)
       <-> ~ exists a b, Error e = a +:+ "no such file or directory" +:+ b)).
Proof.
  intros Hpath Hread.
  rewrite (ReadBoardArticleRecordsFile_decode_error db _ _ _ _ Hpath Hread).
  split; [reflexivity|]. unfold result. simpl snd.
  destruct (Contains (Error e) "no such file or directory") eqn:Hc.
  - apply Contains_spec in Hc.
    split; intros _; split; intros H; try done; try contradiction.
  - assert (Hno : ~ exists a b, Error e = a +:+ "no such file or directory" +:+ b).
    { intros H. apply Contains_spec in H. congruence. }
    split; intros _; split; intros H; try done; try contradiction.
Qed.

Lemma ReadBoardArticleRecordsFile_not_found_tolerated_witness :
  (NotExist (Fixture.enoent (Fixture.dirOf "C")) = true
   /\ result (ReadBoardArticleRecordsFile Fixture.plain "C") = Returns ([], None))
  /\ (NotExist Fixture.badFormat = false
      /\ result (ReadBoardArticleRecordsFile Fixture.broken "B")
         = Returns ([], Some Fixture.badFormat)).
Proof.
  split; (split; [reflexivity|]).
  - apply (proj1 (proj2 (ReadBoardArticleRecordsFile_not_found_tolerated
                           Fixture.plain "C" (Fixture.dirOf "C") []
                           (Fixture.enoent (Fixture.dirOf "C")) eq_refl eq_refl))
             eq_refl).
    by exists "open /home/bbs/boards/C/.DIR: ", "".
  - apply (proj2 (proj2 (ReadBoardArticleRecordsFile_not_found_tolerated
                           Fixture.broken "B" (Fixture.dirOf "B") []
                           Fixture.badFormat eq_refl eq_refl))
             eq_refl).
    intros H. apply Contains_spec in H. discriminate H.
Defined.

(** C10: the board-index reader tells a not-found error from any other by
    the text of the error alone.  Whatever the error is ([genuine] or not),
    a decode error whose text contains "no such file or directory" becomes
    the empty list and a nil error, and one whose text lacks it is returned
    as it is. *)
Theorem ReadBoardArticleRecordsFile_classifies_by_text
    (db : DB) (boardID path : string) (recs : list ArticleRecord.t)
    (text : string) (genuine : bool) :
  GetBoardArticleRecordsPath (connector db) boardID = (path, None) ->
  ReadArticleRecordsFile (connector db) path
    = (recs, Some {| Error := text; NotExist := genuine |}) ->
  ((exists a b, text = a +:+ "no such file or directory" +:+ b) ->
   result (ReadBoardArticleRecordsFile db boardID) = Returns ([], None))
  /\ (~ (exists a b, text = a +:+ "no such file or directory" +:+ b) ->
      result (ReadBoardArticleRecordsFile db boardID)
      = Returns ([], Some {| Error := text; NotExist := genuine |})).
Proof.
  intros Hpath Hread.
  rewrite (ReadBoardArticleRecordsFile_decode_error db _ _ _ _ Hpath Hread).
  simpl. split; intros H.
  - apply Contains_spec in H. by rewrite H.
  - destruct (Contains text _) eqn:Hc; [|done].
    apply Contains_spec in Hc. contradiction.
Qed.

Lemma ReadBoardArticleRecordsFile_classifies_by_text_witness :
  (NotExist Fixture.damaged = false
   /\ result (ReadBoardArticleRecordsFile Fixture.plain "E") = Returns ([], None))
  /\ (NotExist Fixture.errNotExist = true
      /\ result (ReadBoardArticleRecordsFile Fixture.plain "D")
         = Returns ([], Some Fixture.errNotExist)).
Proof.
  split; (split; [reflexivity|]).
  - apply (ReadBoardArticleRecordsFile_classifies_by_text Fixture.plain "E"
             (Fixture.dirOf "E") [] (Error Fixture.damaged) false);
      [reflexivity | reflexivity |].
    by exists "bad archive: ", " entry".
  - apply (ReadBoardArticleRecordsFile_classifies_by_text Fixture.plain "D"
             (Fixture.dirOf "D") [] (Error Fixture.errNotExist) true);
      [reflexivity | reflexivity |].
    intros H. apply Contains_spec in H. discriminate H.
Defined.

(** C7, as stated, fails: the treasure index of board A under x/y does not
    exist, the decode reports a not-found error, and
    [ReadBoardTreasureRecordsFile] returns that error, not an empty list
    with a nil error. *)
Lemma ReadBoardTreasureRecordsFile_not_found_not_tolerated :
  GetBoardTreasureRecordsPath (connector Fixture.plain) "A" ["x"; "y"]
    = ("/home/bbs/man/boards/A/x/y/.DIR", None)
  /\ ReadArticleRecordsFile (connector Fixture.plain) "/home/bbs/man/boards/A/x/y/.DIR"
     = ([], Some (Fixture.enoent "/home/bbs/man/boards/A/x/y/.DIR"))
  /\ isNotFound (Fixture.enoent "/home/bbs/man/boards/A/x/y/.DIR") = true
  /\ result (ReadBoardTreasureRecordsFile Fixture.plain "A" ["x"; "y"])
     <> Returns ([], None)
  /\ result (ReadBoardTreasureRecordsFile Fixture.plain "A" ["x"; "y"])
     = Returns ([], Some (Fixture.enoent "/home/bbs/man/boards/A/x/y/.DIR")).
Proof. repeat split; try reflexivity. intros H. vm_compute in H. discriminate H. Qed.

(** C7, amended: when the path of a treasure index resolves and decoding it
    fails, with a not-found error or any other, [ReadBoardTreasureRecordsFile]
    returns that error and a nil list, after exactly the two driver calls. *)
Theorem ReadBoardTreasureRecordsFile_decode_error_returned
    (db : DB) (boardID : string) (treasureID : list string) (path : string)
    (recs : list ArticleRecord.t) (e : error) :
  GetBoardTreasureRecordsPath (connector db) boardID treasureID = (path, None) ->
  ReadArticleRecordsFile (connector db) path = (recs, Some e) ->
  ReadBoardTreasureRecordsFile db boardID treasureID =
    ([CallGetBoardTreasureRecordsPath boardID treasureID;
      CallReadArticleRecordsFile path],
     Returns ([], Some e)).
Proof.
  intros Hpath Hread. unfold ReadBoardTreasureRecordsFile.
  by rewrite bind_call, Hpath, bind_call, Hread.
Qed.

Lemma ReadBoardTreasureRecordsFile_decode_error_returned_witness :
  isNotFound (Fixture.enoent "/home/bbs/man/boards/A/x/.DIR") = true
  /\ ReadBoardTreasureRecordsFile Fixture.plain "A" ["x"] =
       ([CallGetBoardTreasureRecordsPath "A" ["x"];
         CallReadArticleRecordsFile "/home/bbs/man/boards/A/x/.DIR"],
        Returns ([], Some (Fixture.enoent "/home/bbs/man/boards/A/x/.DIR"))).
Proof.
  split; [reflexivity|].
  apply (ReadBoardTreasureRecordsFile_decode_error_returned Fixture.plain "A" ["x"]
           "/home/bbs/man/boards/A/x/.DIR" []); reflexivity.
Defined.

(** ** The registry *)

Lemma Register_lookup (drivers : gmap string Connector) drivername c :
  Register drivers drivername c !! drivername = Some c.
Proof. unfold Register. apply lookup_insert_eq. Qed.

Lemma Register_lookup_other (drivers : gmap string Connector) drivername c other :
  drivername <> other ->
  Register drivers drivername c !! other = drivers !! other.
Proof. intros Hne. unfold Register. by apply lookup_insert_ne. Qed.

(** C9: [Open] of a name the registry does not hold returns a nil facade and
    an error whose text is "bbs: drivername: <name> not found", without
    calling any driver; of a registered name whose connector fails to open,
    a nil facade and an error whose text is the connector's failure wrapped
    with the driver name, "bbs: drivername: <name> open error: <failure>";
    and of a registered name whose connector opens, a facade bound to the
    registered connector and a nil error. *)
Theorem Open_outcomes
    (drivers : gmap string Connector) (drivername dataSourceName : string) :
  (drivers !! drivername = None ->
   Open drivers drivername dataSourceName =
     ([], Returns (None,
        Some {| Error := "bbs: drivername: " +:+ drivername +:+ " not found";
                NotExist := false |})))
  /\ (forall c e,
      drivers !! drivername = Some c ->
      ConnOpen c dataSourceName = Some e ->
      Open drivers drivername dataSourceName =
        ([CallOpen dataSourceName],
         Returns (None,
           Some {| Error := "bbs: drivername: " +:+ drivername
                            +:+ " open error: " +:+ Error e;
                   NotExist := false |})))
  /\ (forall c,
      drivers !! drivername = Some c ->
      ConnOpen c dataSourceName = None ->
      Open drivers drivername dataSourceName =
        ([CallOpen dataSourceName], Returns (Some {| connector := c |}, None))).
Proof.
  unfold Open. split; [|split].
  - by intros ->.
  - intros c e -> Hopen. by rewrite bind_call, Hopen.
  - intros c -> Hopen. by rewrite bind_call, Hopen.
Qed.

Lemma Open_outcomes_witness :
  (exists e, result (Open Fixture.registry "maple" "/home/bbs") = Returns (None, Some e)
             /\ Error e = "bbs: drivername: maple not found")
  /\ (ConnOpen (connector Fixture.plain) "/tmp"
        = Some {| Error := "no BBS under /tmp"; NotExist := false |}
      /\ exists e, result (Open Fixture.registry "pttbbs" "/tmp") = Returns (None, Some e)
                   /\ Error e = "bbs: drivername: pttbbs open error: no BBS under /tmp")
  /\ result (Open Fixture.registry "pttbbs" "/home/bbs")
     = Returns (Some Fixture.plain, None).
Proof.
  split; [|split; [split; [reflexivity|]|]].
  - eexists. rewrite (proj1 (Open_outcomes Fixture.registry "maple" "/home/bbs")).
    + split; reflexivity.
    + unfold Fixture.registry. by rewrite Register_lookup_other.
  - eexists.
    rewrite (proj1 (proj2 (Open_outcomes Fixture.registry "pttbbs" "/tmp"))
               (connector Fixture.plain)
               {| Error := "no BBS under /tmp"; NotExist := false |}).
    + split; reflexivity.
    + apply Register_lookup.
    + reflexivity.
  - rewrite (proj2 (proj2 (Open_outcomes Fixture.registry "pttbbs" "/home/bbs"))
               (connector Fixture.plain));
      [reflexivity | apply Register_lookup | reflexivity].
Defined.

(** ** Board-record mutation without the capability *)

(** With the capability, [AddBoardRecord] resolves the board-records path
    and hands the record to the driver, whose answer it returns. *)
Lemma AddBoardRecord_with_capability (db : DB) w brd path :
  asWriteBoardConnector (connector db) = Some w ->
  GetBoardRecordsPath (connector db) = (path, None) ->
  AddBoardRecord db brd =
    ([CallGetBoardRecordsPath; CallAddBoardRecordFileRecord path brd],
     Returns (wbAddBoardRecordFileRecord w path brd)).
Proof.
  intros Hcap Hpath. unfold AddBoardRecord, assertWriteBoardConnector.
  rewrite bind_call, Hpath, Hcap. simpl.
  by destruct (wbAddBoardRecordFileRecord w path brd).
Qed.

(** C5 (the code departs from it): on a facade whose connector does not
    implement [WriteBoardConnector], [NewBoardRecord] panics on the failed
    type assertion; [AddBoardRecord] returns the path error when the
    board-records path does not resolve, and panics on the failed type
    assertion when it does.  No error value reports the missing capability. *)
Theorem WriteBoard_missing_panics (db : DB) :
  asWriteBoardConnector (connector db) = None ->
  (forall args,
     NewBoardRecord db args = ([], Panics (InterfaceConversion "WriteBoardConnector")))
  /\ (forall brd path,
      GetBoardRecordsPath (connector db) = (path, None) ->
      AddBoardRecord db brd =
        ([CallGetBoardRecordsPath], Panics (InterfaceConversion "WriteBoardConnector")))
  /\ (forall brd path e,
      GetBoardRecordsPath (connector db) = (path, Some e) ->
      AddBoardRecord db brd = ([CallGetBoardRecordsPath], Returns (Some e))).
Proof.
  intros Hcap. repeat split.
  - intros args. unfold NewBoardRecord, assertWriteBoardConnector.
    by rewrite Hcap.
  - intros brd path Hpath. unfold AddBoardRecord, assertWriteBoardConnector.
    by rewrite bind_call, Hpath, Hcap.
  - intros brd path e Hpath. unfold AddBoardRecord.
    by rewrite bind_call, Hpath.
Qed.

Lemma WriteBoard_missing_panics_witness :
  asWriteBoardConnector (connector Fixture.plain) = None
  /\ result (NewBoardRecord Fixture.plain ∅)
     = Panics (InterfaceConversion "WriteBoardConnector")
  /\ result (AddBoardRecord Fixture.plain (Fixture.board "Z"))
     = Panics (InterfaceConversion "WriteBoardConnector").
Proof.
  split; [reflexivity|].
  destruct (WriteBoard_missing_panics Fixture.plain eq_refl) as (Hnew & Hadd & _).
  split.
  - by rewrite Hnew.
  - by rewrite (Hadd (Fixture.board "Z") "/home/bbs/.BRD" eq_refl).
Defined.

(** ** The aggregation *)

Lemma shouldSkip_true boardID : shouldSkip boardID = true <-> boardID = "ALLPOST".
Proof. unfold shouldSkip. destruct (String.eqb_spec boardID "ALLPOST"); naive_solver. Qed.

Lemma shouldSkip_false boardID : shouldSkip boardID = false <-> boardID <> "ALLPOST".
Proof. unfold shouldSkip. destruct (String.eqb_spec boardID "ALLPOST"); naive_solver. Qed.

Lemma scanArticles_app userID r ars recs :
  scanArticles userID r ars recs =
    recs ++ map (userArticleRecord r)
              (filter (fun ar => ArticleRecord.Owner ar = userID) ars).
Proof.
  revert recs. induction ars as [|ar ars IH]; intros recs; simpl.
  - by rewrite app_nil_r.
  - rewrite filter_cons.
    destruct (String.eqb_spec (ArticleRecord.Owner ar) userID) as [Heq|Hne].
    + rewrite IH, decide_True by done. by rewrite <- app_assoc.
    + rewrite IH, decide_False by done. done.
Qed.

Lemma synthesized_cons userID index r boards :
  synthesized userID index (r :: boards) =
    (if decide (BoardRecord.BoardID r = "ALLPOST") then []
     else map (userArticleRecord r)
            (filter (fun ar => ArticleRecord.Owner ar = userID)
               (index (BoardRecord.BoardID r))))
    ++ synthesized userID index boards.
Proof. reflexivity. Qed.

Section Aggregation.
Variable db : DB.
Variable userID : string.

Lemma ReadBoardArticleRecordsFile_calls boardID :
  boardID <> "ALLPOST" ->
  Forall (scanCall db) (calls (ReadBoardArticleRecordsFile db boardID)).
Proof.
  intros Hne. unfold ReadBoardArticleRecordsFile. rewrite bind_call.
  destruct (GetBoardArticleRecordsPath _ _) as [path [e|]] eqn:Hpath.
  { by repeat constructor. }
  rewrite bind_call. simpl.
  constructor; [done|]. constructor; [by exists boardID|].
  destruct (ReadArticleRecordsFile _ _) as [recs [e|]]; [|by constructor].
  destruct (Contains _ _); by constructor.
Qed.

Lemma ReadBoardRecords_returns :
  exists v, result (ReadBoardRecords db) = Returns v.
Proof.
  unfold ReadBoardRecords. rewrite bind_call.
  destruct (GetBoardRecordsPath _) as [path [e|]]; [by eexists|].
  rewrite bind_call.
  destruct (ReadBoardRecordsFile _ _) as [recs [e|]]; by eexists.
Qed.

Lemma ReadBoardRecords_calls :
  exists tr, calls (ReadBoardRecords db) = CallGetBoardRecordsPath :: tr
             /\ Forall (scanCall db) tr.
Proof.
  unfold ReadBoardRecords. rewrite bind_call.
  destruct (GetBoardRecordsPath _) as [path [e|]]; [by eexists|].
  rewrite bind_call. simpl. eexists; split; [done|].
  constructor; [done|].
  destruct (ReadBoardRecordsFile _ _) as [recs [e|]]; by constructor.
Qed.

(** The scan of boards whose indices can all be read. *)
Lemma scanBoards_complete index boards recs :
  (forall r, r ∈ boards -> BoardRecord.BoardID r <> "ALLPOST" ->
     result (ReadBoardArticleRecordsFile db (BoardRecord.BoardID r))
     = Returns (index (BoardRecord.BoardID r), None)) ->
  result (scanBoards db userID boards recs)
  = Returns (recs ++ synthesized userID index boards, None).
Proof.
  revert recs. induction boards as [|r boards IH]; intros recs Hread.
  - simpl. by rewrite app_nil_r.
  - rewrite synthesized_cons. simpl.
    destruct (shouldSkip (BoardRecord.BoardID r)) eqn:Hskip.
    + apply shouldSkip_true in Hskip. rewrite decide_True by done.
      apply IH. intros r' Hin. apply Hread. by right.
    + apply shouldSkip_false in Hskip. rewrite decide_False by done.
      rewrite (bind_result _ _ _ (Hread r (list_elem_of_here _ _) Hskip)).
      rewrite IH, scanArticles_app.
      * by rewrite <- app_assoc.
      * intros r' Hin. apply Hread. by right.
Qed.

(** The scan stops at the first board whose index cannot be read. *)
Lemma scanBoards_abort pre r post ars e recs :
  (forall r', r' ∈ pre -> BoardRecord.BoardID r' <> "ALLPOST" ->
     exists ars', result (ReadBoardArticleRecordsFile db (BoardRecord.BoardID r'))
                  = Returns (ars', None)) ->
  BoardRecord.BoardID r <> "ALLPOST" ->
  result (ReadBoardArticleRecordsFile db (BoardRecord.BoardID r))
    = Returns (ars, Some e) ->
  result (scanBoards db userID (pre ++ r :: post) recs) = Returns ([], Some e)
  /\ exists tr, calls (scanBoards db userID (pre ++ r :: post) recs)
                = tr ++ calls (ReadBoardArticleRecordsFile db (BoardRecord.BoardID r)).
Proof.
  intros Hpre Hr Hfail. revert recs.
  induction pre as [|r' pre IH]; intros recs; simpl.
  - apply shouldSkip_false in Hr. rewrite Hr.
    rewrite (bind_result _ _ _ Hfail), (bind_calls _ _ _ Hfail). simpl.
    split; [done|]. exists []. by rewrite app_nil_r.
  - assert (Hpre' : forall x, x ∈ pre -> BoardRecord.BoardID x <> "ALLPOST" ->
              exists ars', result (ReadBoardArticleRecordsFile db (BoardRecord.BoardID x))
                           = Returns (ars', None))
      by (intros x Hx; apply Hpre; by right).
    destruct (shouldSkip (BoardRecord.BoardID r')) eqn:Hskip.
    + by apply IH.
    + apply shouldSkip_false in Hskip.
      destruct (Hpre r' (list_elem_of_here _ _) Hskip) as [ars' Hok].
      rewrite (bind_result _ _ _ Hok), (bind_calls _ _ _ Hok).
      destruct (IH Hpre' (scanArticles userID r' ars' recs)) as (Hres & tr & Htr).
      split; [done|]. rewrite Htr.
      exists (calls (ReadBoardArticleRecordsFile db (BoardRecord.BoardID r')) ++ tr).
      by rewrite <- app_assoc.
Qed.

(** Whatever the scan does, it only appends records of boards other than
    ALLPOST and makes only the calls [scanCall] allows. *)
Lemma scanBoards_invariant boards recs :
  Forall (fun x => UserArticleRecord.board_id x <> "ALLPOST") recs ->
  Forall (scanCall db) (calls (scanBoards db userID boards recs))
  /\ exists out err,
       result (scanBoards db userID boards recs) = Returns (out, err)
       /\ Forall (fun x => UserArticleRecord.board_id x <> "ALLPOST") out.
Proof.
  revert recs. induction boards as [|r boards IH]; intros recs Hrecs; simpl.
  - split; [by constructor | by exists recs, None].
  - destruct (shouldSkip (BoardRecord.BoardID r)) eqn:Hskip; [by apply IH|].
    apply shouldSkip_false in Hskip.
    destruct (ReadBoardArticleRecordsFile_returns db (BoardRecord.BoardID r))
      as [[ars err] Hret].
    rewrite (bind_result _ _ _ Hret), (bind_calls _ _ _ Hret).
    pose proof (ReadBoardArticleRecordsFile_calls _ Hskip) as Hcalls.
    destruct err as [e|].
    + simpl. rewrite app_nil_r. split; [done|]. by exists [], (Some e).
    + destruct (IH (scanArticles userID r ars recs)) as (Hc & out & err & Hres & Hout).
      * rewrite scanArticles_app. apply Forall_app. split; [done|].
        apply Forall_forall. intros x Hx.
        apply list_elem_of_fmap in Hx as (ar & -> & _). done.
      * split; [by apply Forall_app | by exists out, err].
Qed.

End Aggregation.

Section UserArticles.
Variable db : DB.
Variable userID : string.

(** When the cache gives nothing, [GetUserArticleRecordFile] is the cache
    lookup followed by the board scan started from an empty slice. *)
Lemma GetUserArticleRecordFile_falls_back :
  cacheUnsupportedOrEmpty db userID = true ->
  GetUserArticleRecordFile db userID =
    (cacheCalls db userID ++ calls (aggregate db userID []),
     result (aggregate db userID [])).
Proof.
  unfold cacheUnsupportedOrEmpty, cacheCalls, GetUserArticleRecordFile.
  destruct (asUserArticleConnector _) as [uac|]; [|intros _; apply M_eta].
  rewrite bind_call.
  destruct (GetUserArticleRecordsPath uac userID) as [path [e|]]; [done|].
  rewrite bind_call.
  destruct (ReadUserArticleRecordFile uac path) as [recs [e|]]; [done|].
  destruct recs as [|x recs]; [|done]. by intros _.
Qed.

Lemma aggregate_scan boards recs :
  result (ReadBoardRecords db) = Returns (boards, None) ->
  aggregate db userID recs =
    (calls (ReadBoardRecords db) ++ calls (scanBoards db userID boards recs),
     result (scanBoards db userID boards recs)).
Proof.
  intros Hread. unfold aggregate. rewrite (M_eta (ReadBoardRecords db)), Hread.
  by rewrite (bind_returns _ _ (calls (ReadBoardRecords db)) (boards, None)).
Qed.

Lemma GetUserArticleRecordFile_falls_back_calls :
  cacheUnsupportedOrEmpty db userID = true ->
  calls (GetUserArticleRecordFile db userID)
  = cacheCalls db userID ++ calls (aggregate db userID []).
Proof. intros H. by rewrite GetUserArticleRecordFile_falls_back. Qed.

Lemma GetUserArticleRecordFile_falls_back_result :
  cacheUnsupportedOrEmpty db userID = true ->
  result (GetUserArticleRecordFile db userID) = result (aggregate db userID []).
Proof. intros H. by rewrite GetUserArticleRecordFile_falls_back. Qed.

Lemma aggregate_scan_calls boards recs :
  result (ReadBoardRecords db) = Returns (boards, None) ->
  calls (aggregate db userID recs)
  = calls (ReadBoardRecords db) ++ calls (scanBoards db userID boards recs).
Proof. intros H. by rewrite (aggregate_scan boards recs H). Qed.

Lemma aggregate_scan_result boards recs :
  result (ReadBoardRecords db) = Returns (boards, None) ->
  result (aggregate db userID recs) = result (scanBoards db userID boards recs).
Proof. intros H. by rewrite (aggregate_scan boards recs H). Qed.

Lemma aggregate_invariant :
  Forall (scanCall db) (calls (aggregate db userID []))
  /\ (exists tr, calls (aggregate db userID []) = CallGetBoardRecordsPath :: tr)
  /\ exists out err,
       result (aggregate db userID []) = Returns (out, err)
       /\ Forall (fun x => UserArticleRecord.board_id x <> "ALLPOST") out.
Proof.
  destruct (ReadBoardRecords_returns db) as [[boards err] Hret].
  destruct (ReadBoardRecords_calls db) as (tr & Htr & Hcalls).
  unfold aggregate.
  rewrite (bind_result _ _ _ Hret), (bind_calls _ _ _ Hret), Htr.
  destruct err as [e|].
  - simpl. rewrite app_nil_r. split; [by constructor|].
    split; [by eexists|]. by exists [], (Some e).
  - destruct (scanBoards_invariant db userID boards []) as (Hc & out & err & Hres & Hout);
      [by constructor|].
    split; [constructor; [done | by apply Forall_app]|].
    split; [by eexists|]. by exists out, err.
Qed.

End UserArticles.

(** C1, as stated, fails where the cache is absent: the driver has the
    cache capability, the cached file of user U does not exist and the read
    reports it; the board records and every index can be read and hold the
    posts of U, yet [GetUserArticleRecordFile] returns the error of the
    cache read and no record. *)
Lemma GetUserArticleRecordFile_absent_cache_not_synthesized :
  ReadUserArticleRecordFile Fixture.cacheMissing "/home/bbs/home/U/.posts"
    = ([], Some (Fixture.enoent "/home/bbs/home/U/.posts"))
  /\ NotExist (Fixture.enoent "/home/bbs/home/U/.posts") = true
  /\ result (ReadBoardRecords Fixture.cachedMissing) = Returns (Fixture.boards, None)
  /\ synthesized "U" Fixture.indexOf Fixture.boards = Fixture.postsOfU
  /\ result (GetUserArticleRecordFile Fixture.cachedMissing "U")
     <> Returns (synthesized "U" Fixture.indexOf Fixture.boards, None)
  /\ result (GetUserArticleRecordFile Fixture.cachedMissing "U")
     = Returns ([], Some (Fixture.enoent "/home/bbs/home/U/.posts")).
Proof.
  repeat (split; [reflexivity|]). split; [|reflexivity].
  intros H. vm_compute in H. discriminate H.
Qed.

(** C1, amended: on a facade whose driver has no user-article cache, or whose cached
    list for [userID] is read without error and is empty, when the board
    records and the index of every board other than ALLPOST are read without
    error, [GetUserArticleRecordFile] returns, with a nil error, exactly
    the records the spec describes: boards in enumeration order, ALLPOST left
    out, within a board the articles owned by [userID] in index order, one
    record each, nothing removed and nothing added. *)
Theorem GetUserArticleRecordFile_synthesized
    (db : DB) (userID : string) (boards : list BoardRecord.t)
    (index : string -> list ArticleRecord.t) :
  cacheUnsupportedOrEmpty db userID = true ->
  result (ReadBoardRecords db) = Returns (boards, None) ->
  (forall r, r ∈ boards -> BoardRecord.BoardID r <> "ALLPOST" ->
     result (ReadBoardArticleRecordsFile db (BoardRecord.BoardID r))
     = Returns (index (BoardRecord.BoardID r), None)) ->
  result (GetUserArticleRecordFile db userID)
  = Returns (synthesized userID index boards, None).
Proof.
  intros Hcache Hboards Hindex.
  rewrite (GetUserArticleRecordFile_falls_back_result db userID Hcache).
  rewrite (aggregate_scan_result db userID boards [] Hboards).
  apply (scanBoards_complete db userID index boards [] Hindex).
Qed.

Lemma Fixture_index_read (db : DB) r :
  ReadArticleRecordsFile (connector db) = Fixture.files ->
  GetBoardArticleRecordsPath (connector db) = (fun b => (Fixture.dirOf b, None)) ->
  r ∈ Fixture.boards -> BoardRecord.BoardID r <> "ALLPOST" ->
  result (ReadBoardArticleRecordsFile db (BoardRecord.BoardID r))
  = Returns (Fixture.indexOf (BoardRecord.BoardID r), None).
Proof.
  intros Hfiles Hpath Hin Hne. unfold ReadBoardArticleRecordsFile.
  rewrite Hfiles, Hpath. unfold Fixture.boards in Hin.
  repeat (apply elem_of_cons in Hin as [-> | Hin]);
    try reflexivity.
  by apply not_elem_of_nil in Hin.
Qed.

Lemma GetUserArticleRecordFile_synthesized_witness :
  result (GetUserArticleRecordFile Fixture.plain "U") = Returns (Fixture.postsOfU, None)
  /\ result (GetUserArticleRecordFile Fixture.cachedEmpty "U")
     = Returns (Fixture.postsOfU, None).
Proof.
  split.
  - rewrite (GetUserArticleRecordFile_synthesized Fixture.plain "U"
               Fixture.boards Fixture.indexOf);
      [reflexivity | reflexivity | reflexivity |].
    intros r. by apply Fixture_index_read.
  - rewrite (GetUserArticleRecordFile_synthesized Fixture.cachedEmpty "U"
               Fixture.boards Fixture.indexOf);
      [reflexivity | reflexivity | reflexivity |].
    intros r. by apply Fixture_index_read.
Defined.

(** C2: on a facade whose driver has the user-article cache, when the cached
    path resolves and the read succeeds with a non-empty list,
    [GetUserArticleRecordFile] returns that list unchanged with a nil error,
    and the only driver calls it makes are the two of the cache lookup: no
    board record and no article index is read. *)
Theorem GetUserArticleRecordFile_cache_hit
    (db : DB) (userID : string) (uac : UserArticleConnector) (path : string)
    (recs : list UserArticleRecord.t) :
  asUserArticleConnector (connector db) = Some uac ->
  GetUserArticleRecordsPath uac userID = (path, None) ->
  ReadUserArticleRecordFile uac path = (recs, None) ->
  recs <> [] ->
  GetUserArticleRecordFile db userID =
    ([CallGetUserArticleRecordsPath userID; CallReadUserArticleRecordFile path],
     Returns (recs, None))
  /\ Forall (fun c => boardCall c = false) (calls (GetUserArticleRecordFile db userID)).
Proof.
  intros Hcap Hpath Hread Hne. unfold GetUserArticleRecordFile.
  rewrite Hcap, bind_call, Hpath, bind_call, Hread.
  destruct recs as [|x recs]; [done|]. simpl.
  split; [done|]. by repeat constructor.
Qed.

Lemma GetUserArticleRecordFile_cache_hit_witness :
  GetUserArticleRecordFile Fixture.cached "U" =
    ([CallGetUserArticleRecordsPath "U";
      CallReadUserArticleRecordFile "/home/bbs/home/U/.posts"],
     Returns ([Fixture.stale], None))
  /\ result (GetUserArticleRecordFile Fixture.plain "U")
     = Returns (Fixture.postsOfU, None).
Proof.
  split; [|reflexivity].
  apply (GetUserArticleRecordFile_cache_hit Fixture.cached "U"
           (Fixture.cacheOf [Fixture.stale]) "/home/bbs/home/U/.posts"
           [Fixture.stale]); try reflexivity.
  discriminate.
Defined.

(** C3, as stated, fails: the driver has the cache capability, the cached
    file of user U does not exist and the read reports a not-found error;
    [GetUserArticleRecordFile] fails with that error and enumerates no
    board. *)
Lemma GetUserArticleRecordFile_cache_not_found_fails :
  asUserArticleConnector (connector Fixture.cachedMissing) = Some Fixture.cacheMissing
  /\ GetUserArticleRecordsPath Fixture.cacheMissing "U" = ("/home/bbs/home/U/.posts", None)
  /\ ReadUserArticleRecordFile Fixture.cacheMissing "/home/bbs/home/U/.posts"
     = ([], Some (Fixture.enoent "/home/bbs/home/U/.posts"))
  /\ isNotFound (Fixture.enoent "/home/bbs/home/U/.posts") = true
  /\ GetUserArticleRecordFile Fixture.cachedMissing "U" =
       ([CallGetUserArticleRecordsPath "U";
         CallReadUserArticleRecordFile "/home/bbs/home/U/.posts"],
        Returns ([], Some (Fixture.enoent "/home/bbs/home/U/.posts")))
  /\ existsb boardCall (calls (GetUserArticleRecordFile Fixture.cachedMissing "U")) = false.
Proof. repeat split. Qed.

(** C3, amended: on a facade whose driver has the user-article cache and
    resolves the cached path, when the read succeeds with an empty list,
    [GetUserArticleRecordFile] does not stop there: it goes on with the
    board scan, whose first call resolves the board-records path, and ends
    as the scan ends; when the read fails, with a not-found error or any
    other, it returns that error with a nil list and reads no board. *)
Theorem GetUserArticleRecordFile_cache_empty_falls_back
    (db : DB) (userID : string) (uac : UserArticleConnector) (path : string) :
  asUserArticleConnector (connector db) = Some uac ->
  GetUserArticleRecordsPath uac userID = (path, None) ->
  (forall recs,
     ReadUserArticleRecordFile uac path = (recs, None) -> length recs = 0 ->
     GetUserArticleRecordFile db userID =
       ([CallGetUserArticleRecordsPath userID; CallReadUserArticleRecordFile path]
          ++ calls (aggregate db userID []),
        result (aggregate db userID []))
     /\ exists tr, calls (aggregate db userID []) = CallGetBoardRecordsPath :: tr)
  /\ (forall recs e,
      ReadUserArticleRecordFile uac path = (recs, Some e) ->
      GetUserArticleRecordFile db userID =
        ([CallGetUserArticleRecordsPath userID; CallReadUserArticleRecordFile path],
         Returns ([], Some e))).
Proof.
  intros Hcap Hpath. split.
  - intros recs Hread Hlen. split.
    + rewrite GetUserArticleRecordFile_falls_back.
      * unfold cacheCalls. by rewrite Hcap, Hpath.
      * unfold cacheUnsupportedOrEmpty. rewrite Hcap, Hpath, Hread.
        by apply Nat.eqb_eq.
    + apply aggregate_invariant.
  - intros recs e Hread. unfold GetUserArticleRecordFile.
    by rewrite Hcap, bind_call, Hpath, bind_call, Hread.
Qed.

Lemma GetUserArticleRecordFile_cache_empty_falls_back_witness :
  GetUserArticleRecordFile Fixture.cachedEmpty "U" =
    ([CallGetUserArticleRecordsPath "U";
      CallReadUserArticleRecordFile "/home/bbs/home/U/.posts"]
       ++ calls (aggregate Fixture.cachedEmpty "U" []),
     Returns (Fixture.postsOfU, None))
  /\ result (GetUserArticleRecordFile Fixture.cachedMissing "U")
     = Returns ([], Some (Fixture.enoent "/home/bbs/home/U/.posts")).
Proof.
  split.
  - destruct (GetUserArticleRecordFile_cache_empty_falls_back Fixture.cachedEmpty "U"
                (Fixture.cacheOf []) "/home/bbs/home/U/.posts" eq_refl eq_refl)
      as [Hempty _].
    destruct (Hempty [] eq_refl eq_refl) as [Hrun _].
    rewrite Hrun. reflexivity.
  - destruct (GetUserArticleRecordFile_cache_empty_falls_back Fixture.cachedMissing "U"
                Fixture.cacheMissing "/home/bbs/home/U/.posts" eq_refl eq_refl)
      as [_ Herror].
    rewrite (Herror [] (Fixture.enoent "/home/bbs/home/U/.posts") eq_refl).
    reflexivity.
Defined.

(** C4: when [GetUserArticleRecordFile] takes the aggregation path, it never
    asks the driver for the article index of ALLPOST, every index file it
    reads is one the driver resolved for a board other than ALLPOST, it
    returns, and no record it returns has the board id ALLPOST. *)
Theorem GetUserArticleRecordFile_excludes_ALLPOST (db : DB) (userID : string) :
  cacheUnsupportedOrEmpty db userID = true ->
  (CallGetBoardArticleRecordsPath "ALLPOST" ∉ calls (GetUserArticleRecordFile db userID))
  /\ (forall name,
      CallReadArticleRecordsFile name ∈ calls (GetUserArticleRecordFile db userID) ->
      exists boardID, boardID <> "ALLPOST"
        /\ GetBoardArticleRecordsPath (connector db) boardID = (name, None))
  /\ exists recs err,
       result (GetUserArticleRecordFile db userID) = Returns (recs, err)
       /\ forall x, x ∈ recs -> UserArticleRecord.board_id x <> "ALLPOST".
Proof.
  intros Hcache.
  rewrite (GetUserArticleRecordFile_falls_back_calls db userID Hcache).
  rewrite (GetUserArticleRecordFile_falls_back_result db userID Hcache).
  destruct (aggregate_invariant db userID) as (Hcalls & _ & out & err & Hres & Hout).
  assert (Hall : Forall (scanCall db)
                   (cacheCalls db userID ++ calls (aggregate db userID []))).
  { apply Forall_app. split; [|done]. unfold cacheCalls.
    destruct (asUserArticleConnector _); by repeat constructor. }
  rewrite Forall_forall in Hall.
  split; [|split].
  - intros Hin. by apply (Hall _ Hin).
  - intros name Hin. apply (Hall _ Hin).
  - exists out, err. split; [done|]. by apply Forall_forall.
Qed.

Lemma GetUserArticleRecordFile_excludes_ALLPOST_witness :
  Fixture.board "ALLPOST" ∈ Fixture.boards
  /\ Fixture.indexOf "ALLPOST" = [Fixture.article "M.4" "U"]
  /\ cacheUnsupportedOrEmpty Fixture.plain "U" = true
  /\ (CallGetBoardArticleRecordsPath "ALLPOST"
        ∉ calls (GetUserArticleRecordFile Fixture.plain "U"))
  /\ exists recs err,
       result (GetUserArticleRecordFile Fixture.plain "U") = Returns (recs, err)
       /\ forall x, x ∈ recs -> UserArticleRecord.board_id x <> "ALLPOST".
Proof.
  split; [unfold Fixture.boards; set_solver|].
  split; [reflexivity|]. split; [reflexivity|].
  destruct (GetUserArticleRecordFile_excludes_ALLPOST Fixture.plain "U" eq_refl)
    as (Hcalls & _ & Hrecs).
  by split.
Defined.

(** C8, as stated, fails for an error other than not-found whose text
    quotes a missing file.  The index of board E, listed between A and B, is
    damaged and the decode reports it; the operation returns no error and
    the posts found on A and B, board E silently left out. *)
Lemma GetUserArticleRecordFile_damaged_index_not_reported :
  result (ReadBoardRecords Sample.withDamaged)
    = Returns ([Fixture.board "A"; Fixture.board "E"; Fixture.board "B"], None)
  /\ ReadArticleRecordsFile (connector Sample.withDamaged) (Fixture.dirOf "E")
     = ([], Some Fixture.damaged)
  /\ NotExist Fixture.damaged = false
  /\ result (GetUserArticleRecordFile Sample.withDamaged "U")
     = Returns (Fixture.postsOfU, None)
  /\ result (GetUserArticleRecordFile Sample.withDamaged "U")
     <> Returns ([], Some Fixture.damaged).
Proof.
  repeat (split; [reflexivity|]). intros H. vm_compute in H. discriminate H.
Qed.

(** C8, amended: when [GetUserArticleRecordFile] takes the aggregation path
    and, the boards before it having been read without error, the read of
    the article index of a board other than ALLPOST fails, because its path
    does not resolve or because the decode fails with an error whose text
    does not contain "no such file or directory", the operation returns that
    error with a nil list, nothing of what the earlier boards contributed,
    and the failed step is the last call it makes. *)
Theorem GetUserArticleRecordFile_aborts_on_index_error
    (db : DB) (userID : string) (pre post : list BoardRecord.t)
    (r : BoardRecord.t) (path : string) (e : error) :
  cacheUnsupportedOrEmpty db userID = true ->
  result (ReadBoardRecords db) = Returns (pre ++ r :: post, None) ->
  (forall r', r' ∈ pre -> BoardRecord.BoardID r' <> "ALLPOST" ->
     exists ars', result (ReadBoardArticleRecordsFile db (BoardRecord.BoardID r'))
                  = Returns (ars', None)) ->
  BoardRecord.BoardID r <> "ALLPOST" ->
  (GetBoardArticleRecordsPath (connector db) (BoardRecord.BoardID r) = (path, Some e)
   \/ (GetBoardArticleRecordsPath (connector db) (BoardRecord.BoardID r) = (path, None)
       /\ snd (ReadArticleRecordsFile (connector db) path) = Some e
       /\ ~ exists a b, Error e = a +:+ "no such file or directory" +:+ b)) ->
  result (GetUserArticleRecordFile db userID) = Returns ([], Some e)
  /\ exists tr, calls (GetUserArticleRecordFile db userID) =
       tr ++ match GetBoardArticleRecordsPath (connector db) (BoardRecord.BoardID r) with
             | (_, Some _) => [CallGetBoardArticleRecordsPath (BoardRecord.BoardID r)]
             | (p, None) => [CallGetBoardArticleRecordsPath (BoardRecord.BoardID r);
                             CallReadArticleRecordsFile p]
             end.
Proof.
  intros Hcache Hboards Hpre Hr Hfail.
  assert (Hrun : ReadBoardArticleRecordsFile db (BoardRecord.BoardID r) =
            (match GetBoardArticleRecordsPath (connector db) (BoardRecord.BoardID r) with
             | (_, Some _) => [CallGetBoardArticleRecordsPath (BoardRecord.BoardID r)]
             | (p, None) => [CallGetBoardArticleRecordsPath (BoardRecord.BoardID r);
                             CallReadArticleRecordsFile p]
             end, Returns ([], Some e))).
  { destruct Hfail as [Hpath | (Hpath & Hread & Htext)]; rewrite Hpath.
    - unfold ReadBoardArticleRecordsFile. by rewrite bind_call, Hpath.
    - destruct (ReadArticleRecordsFile (connector db) path) as [ars [e'|]] eqn:Hdec;
        simpl in Hread; [|done]. injection Hread as ->.
      rewrite (ReadBoardArticleRecordsFile_decode_error db _ _ _ _ Hpath Hdec).
      destruct (Contains (Error e) _) eqn:Hc; [|done].
      apply Contains_spec in Hc. contradiction. }
  destruct (scanBoards_abort db userID pre r post [] e [] Hpre Hr) as (Hres & tr & Htr).
  { by rewrite Hrun. }
  rewrite (GetUserArticleRecordFile_falls_back_calls db userID Hcache).
  rewrite (GetUserArticleRecordFile_falls_back_result db userID Hcache).
  rewrite (aggregate_scan_calls db userID _ [] Hboards).
  rewrite (aggregate_scan_result db userID _ [] Hboards).
  split; [done|]. rewrite Htr.
  replace (calls (ReadBoardArticleRecordsFile db (BoardRecord.BoardID r)))
    with (fst (ReadBoardArticleRecordsFile db (BoardRecord.BoardID r))) by done.
  rewrite Hrun. simpl fst.
  exists (cacheCalls db userID ++ calls (ReadBoardRecords db) ++ tr).
  by rewrite <- !app_assoc.
Qed.

Lemma GetUserArticleRecordFile_aborts_on_index_error_witness :
  (result (scanBoards Fixture.broken "U" [Fixture.board "A"] [])
     = Returns ([UserArticleRecord.mk "A" "Re: M.1" "U" "M.1"], None)
   /\ result (GetUserArticleRecordFile Fixture.broken "U")
      = Returns ([], Some Fixture.badFormat)
   /\ exists tr, calls (GetUserArticleRecordFile Fixture.broken "U") =
        tr ++ [CallGetBoardArticleRecordsPath "B";
               CallReadArticleRecordsFile (Fixture.dirOf "B")])
  /\ (result (GetUserArticleRecordFile Sample.withInvalid "U")
        = Returns ([], Some Sample.invalidId)
      /\ exists tr, calls (GetUserArticleRecordFile Sample.withInvalid "U") =
           tr ++ [CallGetBoardArticleRecordsPath ""]).
Proof.
  assert (Hpre : forall db, ReadArticleRecordsFile (connector db) = Fixture.files ->
            GetBoardArticleRecordsPath (connector db) "A" = (Fixture.dirOf "A", None) ->
            forall r', r' ∈ [Fixture.board "A"] -> BoardRecord.BoardID r' <> "ALLPOST" ->
            exists ars', result (ReadBoardArticleRecordsFile db (BoardRecord.BoardID r'))
                         = Returns (ars', None)).
  { intros db Hfiles Hpath r' Hin _. apply list_elem_of_singleton in Hin as ->.
    eexists. unfold ReadBoardArticleRecordsFile. simpl BoardRecord.BoardID.
    rewrite bind_call, Hpath, bind_call, Hfiles. reflexivity. }
  split; [split; [reflexivity|]|].
  - apply (GetUserArticleRecordFile_aborts_on_index_error Fixture.broken "U"
             [Fixture.board "A"] [Fixture.board "ALLPOST"; Fixture.board "C"]
             (Fixture.board "B") (Fixture.dirOf "B") Fixture.badFormat);
      [reflexivity | reflexivity | | discriminate |].
    + intros r' Hin _. apply list_elem_of_singleton in Hin as ->. by eexists.
    + right. split; [reflexivity|]. split; [reflexivity|].
      intros H. apply Contains_spec in H. discriminate H.
  - apply (GetUserArticleRecordFile_aborts_on_index_error Sample.withInvalid "U"
             [Fixture.board "A"] [Fixture.board "B"]
             (Fixture.board "") "" Sample.invalidId);
      [reflexivity | reflexivity | by apply Hpre | discriminate | by left].
Defined.


(** * Further properties of the facade *)

(** ** Registration and opening *)

(** X1: after [Register], [Open] of the registered name asks the connector
    just registered, whatever the table held under that name before: it
    returns a facade bound to it when it opens, and, when it does not, a nil
    facade and an error whose text is its failure wrapped with the driver
    name, "bbs: drivername: <name> open error: <failure>". *)
Theorem Open_after_Register
    (drivers : gmap string Connector) (drivername dataSourceName : string)
    (c : Connector) :
  Open (Register drivers drivername c) drivername dataSourceName =
    ([CallOpen dataSourceName],
     Returns (match ConnOpen c dataSourceName with
              | None => (Some {| connector := c |}, None)
              | Some e =>
                  (None,
                   Some {| Error := "bbs: drivername: " +:+ drivername
                                    +:+ " open error: " +:+ Error e;
                           NotExist := false |})
              end)).
Proof.
  unfold Open. rewrite Register_lookup, bind_call.
  by destruct (ConnOpen c dataSourceName).
Qed.

(** X2: registering a driver under one name does not change what [Open]
    does for any other name. *)
Theorem Open_Register_other
    (drivers : gmap string Connector) (drivername other dataSourceName : string)
    (c : Connector) :
  drivername <> other ->
  Open (Register drivers drivername c) other dataSourceName
  = Open drivers other dataSourceName.
Proof. intros Hne. unfold Open. by rewrite Register_lookup_other. Qed.

Lemma Open_Register_other_witness :
  Open (Register Fixture.registry "maple" (connector Fixture.broken)) "pttbbs" "/home/bbs"
  = ([CallOpen "/home/bbs"], Returns (Some Fixture.plain, None)).
Proof.
  rewrite (Open_Register_other Fixture.registry "maple" "pttbbs" "/home/bbs");
    [|discriminate].
  unfold Open, Fixture.registry. by rewrite Register_lookup, bind_call.
Defined.

(** X3: what [Open] returns is a facade or an error, never both and never
    neither; a facade is returned only when the connector registered under
    the name opened without error, and is bound to that connector; and the
    only call made on a driver is its [Open] with the data source name.  (A
    nil connector, which Go's [Register] accepts, is outside the model.) *)
Theorem Open_facade_or_error
    (drivers : gmap string Connector) (drivername dataSourceName : string)
    (facade : option DB) (err : option error) :
  result (Open drivers drivername dataSourceName) = Returns (facade, err) ->
  (facade = None <-> err <> None)
  /\ (forall db, facade = Some db ->
        drivers !! drivername = Some (connector db)
        /\ ConnOpen (connector db) dataSourceName = None)
  /\ Forall (fun c => c = CallOpen dataSourceName)
       (calls (Open drivers drivername dataSourceName)).
Proof.
  unfold Open. destruct (drivers !! drivername) as [c|] eqn:Hc.
  - rewrite bind_call. destruct (ConnOpen c dataSourceName) as [e|] eqn:Hopen;
      simpl; intros [= <- <-].
    + split; [done|]. split; [done|]. by repeat constructor.
    + split; [split; [done | by intros []]|].
      split; [by intros db [= <-] | by repeat constructor].
  - simpl. intros [= <- <-]. split; [done|]. split; [done | constructor].
Qed.

Lemma Open_facade_or_error_witness :
  (Fixture.registry !! "pttbbs" = Some (connector Fixture.plain)
   /\ ConnOpen (connector Fixture.plain) "/home/bbs" = None)
  /\ Forall (fun c => c = CallOpen "/tmp") (calls (Open Fixture.registry "pttbbs" "/tmp")).
Proof.
  split.
  - by apply (proj1 (proj2 (Open_facade_or_error Fixture.registry "pttbbs" "/home/bbs"
                              (Some Fixture.plain) None eq_refl))
                Fixture.plain).
  - by apply (Open_facade_or_error Fixture.registry "pttbbs" "/tmp" None
                (Some {| Error := "bbs: drivername: pttbbs open error: no BBS under /tmp";
                         NotExist := false |})).
Defined.

(** ** The readers of board records and indices *)

(** X4: [ReadBoardRecords] returns the error of the path resolution without
    reading any file, returns the error of the read, a not-found error
    included, with a nil list, and otherwise returns the records the driver
    decoded, unchanged. *)
Theorem ReadBoardRecords_outcomes (db : DB) :
  (forall path e,
     GetBoardRecordsPath (connector db) = (path, Some e) ->
     ReadBoardRecords db = ([CallGetBoardRecordsPath], Returns ([], Some e)))
  /\ (forall path recs e,
      GetBoardRecordsPath (connector db) = (path, None) ->
      ReadBoardRecordsFile (connector db) path = (recs, Some e) ->
      ReadBoardRecords db =
        ([CallGetBoardRecordsPath; CallReadBoardRecordsFile path],
         Returns ([], Some e)))
  /\ (forall path recs,
      GetBoardRecordsPath (connector db) = (path, None) ->
      ReadBoardRecordsFile (connector db) path = (recs, None) ->
      ReadBoardRecords db =
        ([CallGetBoardRecordsPath; CallReadBoardRecordsFile path],
         Returns (recs, None))).
Proof.
  unfold ReadBoardRecords. split; [|split].
  - intros path e Hpath. by rewrite bind_call, Hpath.
  - intros path recs e Hpath Hread. by rewrite bind_call, Hpath, bind_call, Hread.
  - intros path recs Hpath Hread. by rewrite bind_call, Hpath, bind_call, Hread.
Qed.

Lemma ReadBoardRecords_outcomes_witness :
  ReadBoardRecords (Sample.homeless None None)
    = ([CallGetBoardRecordsPath], Returns ([], Some Sample.noHome))
  /\ ReadBoardRecords Fixture.plain
     = ([CallGetBoardRecordsPath; CallReadBoardRecordsFile "/home/bbs/.BRD"],
        Returns (Fixture.boards, None)).
Proof.
  split.
  - by apply (proj1 (ReadBoardRecords_outcomes (Sample.homeless None None)) "").
  - by apply (proj2 (proj2 (ReadBoardRecords_outcomes Fixture.plain)) "/home/bbs/.BRD").
Defined.

(** X5: the not-found tolerance of [ReadBoardArticleRecordsFile] covers the
    decode only.  An error of the path resolution is returned as it is, even
    when its text says "no such file or directory", and no file is read;
    a decode that succeeds returns the decoded articles unchanged. *)
Theorem ReadBoardArticleRecordsFile_path_error_and_success
    (db : DB) (boardID : string) :
  (forall path e,
     GetBoardArticleRecordsPath (connector db) boardID = (path, Some e) ->
     ReadBoardArticleRecordsFile db boardID =
       ([CallGetBoardArticleRecordsPath boardID], Returns ([], Some e)))
  /\ (forall path recs,
      GetBoardArticleRecordsPath (connector db) boardID = (path, None) ->
      ReadArticleRecordsFile (connector db) path = (recs, None) ->
      ReadBoardArticleRecordsFile db boardID =
        ([CallGetBoardArticleRecordsPath boardID; CallReadArticleRecordsFile path],
         Returns (recs, None))).
Proof.
  unfold ReadBoardArticleRecordsFile. split.
  - intros path e Hpath. by rewrite bind_call, Hpath.
  - intros path recs Hpath Hread. by rewrite bind_call, Hpath, bind_call, Hread.
Qed.

Lemma ReadBoardArticleRecordsFile_path_error_and_success_witness :
  isNotFound Sample.noHome = true
  /\ ReadBoardArticleRecordsFile (Sample.homeless None None) "A"
     = ([CallGetBoardArticleRecordsPath "A"], Returns ([], Some Sample.noHome))
  /\ result (ReadBoardArticleRecordsFile Fixture.plain "B")
     = Returns ([Fixture.article "M.3" "U"], None).
Proof.
  split; [reflexivity|]. split.
  - by apply (proj1 (ReadBoardArticleRecordsFile_path_error_and_success
                       (Sample.homeless None None) "A") "").
  - by rewrite (proj2 (ReadBoardArticleRecordsFile_path_error_and_success
                         Fixture.plain "B") (Fixture.dirOf "B")
                  [Fixture.article "M.3" "U"]).
Defined.

Lemma append_assoc (a b c : string) : (a +:+ b) +:+ c = a +:+ (b +:+ c).
Proof.
  induction a as [|x a IH]; [done|].
  change (String x ((a +:+ b) +:+ c) = String x (a +:+ (b +:+ c))).
  by rewrite IH.
Qed.

Lemma isNotFound_wrapped (e0 e : error) (pre post : string) :
  isNotFound e0 = true ->
  Error e = pre +:+ Error e0 +:+ post ->
  isNotFound e = true.
Proof.
  unfold isNotFound. intros H0 He.
  apply Contains_spec in H0 as (a & b & Hab). apply Contains_spec.
  exists (pre +:+ a), (b +:+ post).
  by rewrite He, Hab, !append_assoc.
Qed.

(** X6: the tolerance survives wrapping.  When the decode error's text
    embeds, between any prefix and suffix, the text of an error the facade
    classifies as not-found, [ReadBoardArticleRecordsFile] still returns the
    empty list and a nil error. *)
Theorem ReadBoardArticleRecordsFile_wrapped_not_found
    (db : DB) (boardID path : string) (recs : list ArticleRecord.t)
    (e e0 : error) (pre post : string) :
  GetBoardArticleRecordsPath (connector db) boardID = (path, None) ->
  ReadArticleRecordsFile (connector db) path = (recs, Some e) ->
  isNotFound e0 = true ->
  Error e = pre +:+ Error e0 +:+ post ->
  result (ReadBoardArticleRecordsFile db boardID) = Returns ([], None).
Proof.
  intros Hpath Hread H0 He.
  rewrite (ReadBoardArticleRecordsFile_decode_error db _ _ _ _ Hpath Hread).
  pose proof (isNotFound_wrapped e0 e pre post H0 He) as Hnf.
  unfold isNotFound in Hnf. by rewrite Hnf.
Qed.

Lemma ReadBoardArticleRecordsFile_wrapped_not_found_witness :
  result (ReadBoardArticleRecordsFile Sample.wrapped "C") = Returns ([], None).
Proof.
  apply (ReadBoardArticleRecordsFile_wrapped_not_found Sample.wrapped "C"
           (Fixture.dirOf "C") []
           (Errorf ("pttbbs: read " +:+ Fixture.dirOf "C" +:+ ": "
                    +:+ Error (Fixture.enoent (Fixture.dirOf "C")) +:+ " (skipped)"))
           (Fixture.enoent (Fixture.dirOf "C"))
           ("pttbbs: read " +:+ Fixture.dirOf "C" +:+ ": ") " (skipped)");
    reflexivity.
Defined.

(** X7: [ReadBoardTreasureRecordsFile] returns the error of the path
    resolution without reading any file, and the decoded articles unchanged
    when the decode succeeds. *)
Theorem ReadBoardTreasureRecordsFile_path_error_and_success
    (db : DB) (boardID : string) (treasureID : list string) :
  (forall path e,
     GetBoardTreasureRecordsPath (connector db) boardID treasureID = (path, Some e) ->
     ReadBoardTreasureRecordsFile db boardID treasureID =
       ([CallGetBoardTreasureRecordsPath boardID treasureID], Returns ([], Some e)))
  /\ (forall path recs,
      GetBoardTreasureRecordsPath (connector db) boardID treasureID = (path, None) ->
      ReadArticleRecordsFile (connector db) path = (recs, None) ->
      ReadBoardTreasureRecordsFile db boardID treasureID =
        ([CallGetBoardTreasureRecordsPath boardID treasureID;
          CallReadArticleRecordsFile path],
         Returns (recs, None))).
Proof.
  unfold ReadBoardTreasureRecordsFile. split.
  - intros path e Hpath. by rewrite bind_call, Hpath.
  - intros path recs Hpath Hread. by rewrite bind_call, Hpath, bind_call, Hread.
Qed.

Lemma ReadBoardTreasureRecordsFile_path_error_and_success_witness :
  ReadBoardTreasureRecordsFile (Sample.homeless None None) "A" ["x"]
    = ([CallGetBoardTreasureRecordsPath "A" ["x"]], Returns ([], Some Sample.noHome))
  /\ ReadBoardTreasureRecordsFile Sample.archived "A" ["x"]
     = ([CallGetBoardTreasureRecordsPath "A" ["x"];
         CallReadArticleRecordsFile "/home/bbs/man/boards/A/x/.DIR"],
        Returns ([Fixture.article "M.0" "U"], None)).
Proof.
  split.
  - by apply (proj1 (ReadBoardTreasureRecordsFile_path_error_and_success
                       (Sample.homeless None None) "A" ["x"]) "").
  - by apply (proj2 (ReadBoardTreasureRecordsFile_path_error_and_success
                       Sample.archived "A" ["x"])).
Defined.

(** ** More on the aggregation *)

Section Scan.
Variable db : DB.

Lemma ReadBoardArticleRecordsFile_success_calls boardID ars :
  result (ReadBoardArticleRecordsFile db boardID) = Returns (ars, None) ->
  calls (ReadBoardArticleRecordsFile db boardID) =
    [CallGetBoardArticleRecordsPath boardID;
     CallReadArticleRecordsFile
       (fst (GetBoardArticleRecordsPath (connector db) boardID))].
Proof.
  unfold ReadBoardArticleRecordsFile. rewrite bind_call.
  destruct (GetBoardArticleRecordsPath _ _) as [path [e|]]; [done|].
  rewrite bind_call. intros _. simpl.
  destruct (ReadArticleRecordsFile _ _) as [recs [e|]]; [|done].
  by destruct (Contains _ _).
Qed.

Lemma ReadBoardArticleRecordsFile_text_tolerated boardID path :
  GetBoardArticleRecordsPath (connector db) boardID = (path, None) ->
  (snd (ReadArticleRecordsFile (connector db) path) = None
   \/ exists e a b,
        snd (ReadArticleRecordsFile (connector db) path) = Some e
        /\ Error e = a +:+ "no such file or directory" +:+ b) ->
  result (ReadBoardArticleRecordsFile db boardID)
  = Returns (decodedIndex db boardID, None).
Proof.
  intros Hpath Hread. unfold decodedIndex, ReadBoardArticleRecordsFile.
  rewrite bind_call, Hpath, bind_call.
  destruct (ReadArticleRecordsFile _ _) as [recs [e|]]; [|done].
  destruct Hread as [Hnone | (e' & a & b & [= <-] & Htext)]; [done|].
  assert (Hc : Contains (Error e) "no such file or directory" = true)
    by (apply Contains_spec; eauto).
  by rewrite Hc.
Qed.

(** Whatever the scan returns is records or an error, not both. *)
Lemma scanBoards_all_or_nothing userID boards recs :
  exists out err,
    result (scanBoards db userID boards recs) = Returns (out, err)
    /\ (err <> None -> out = []).
Proof.
  revert recs. induction boards as [|r boards IH]; intros recs; simpl.
  - by exists recs, None.
  - destruct (shouldSkip (BoardRecord.BoardID r)); [apply IH|].
    destruct (ReadBoardArticleRecordsFile_returns db (BoardRecord.BoardID r))
      as [[ars [e|]] Hret]; rewrite (bind_result _ _ _ Hret).
    + by exists [], (Some e).
    + apply IH.
Qed.

(** A property of records that every record built by the scan for
    [userID] has is kept by the scan. *)
Lemma scanBoards_Forall (P : UserArticleRecord.t -> Prop) userID boards recs :
  (forall r ar, ArticleRecord.Owner ar = userID -> P (userArticleRecord r ar)) ->
  Forall P recs ->
  forall out err,
    result (scanBoards db userID boards recs) = Returns (out, err) ->
    Forall P out.
Proof.
  intros HP. revert recs. induction boards as [|r boards IH]; intros recs Hrecs out err; simpl.
  - by intros [= <- _].
  - destruct (shouldSkip (BoardRecord.BoardID r)); [by apply IH|].
    destruct (ReadBoardArticleRecordsFile_returns db (BoardRecord.BoardID r))
      as [[ars [e|]] Hret]; rewrite (bind_result _ _ _ Hret).
    + by intros [= <- _].
    + apply IH. rewrite scanArticles_app. apply Forall_app. split; [done|].
      apply Forall_forall. intros x Hx.
      apply list_elem_of_fmap in Hx as (ar & -> & Har).
      apply list_elem_of_filter in Har as [Hown _]. by apply HP.
Qed.

(** A scan that ends without error has read every board it did not skip. *)
Lemma scanBoards_success_reads userID boards recs out :
  result (scanBoards db userID boards recs) = Returns (out, None) ->
  forall r, r ∈ boards -> BoardRecord.BoardID r <> "ALLPOST" ->
    result (ReadBoardArticleRecordsFile db (BoardRecord.BoardID r))
    = Returns (facadeIndex db (BoardRecord.BoardID r), None).
Proof.
  revert recs. induction boards as [|r boards IH]; intros recs Hres r' Hin Hne.
  - by apply elem_of_nil in Hin.
  - simpl in Hres.
    destruct (shouldSkip (BoardRecord.BoardID r)) eqn:Hskip.
    + apply shouldSkip_true in Hskip.
      apply elem_of_cons in Hin as [-> | Hin]; [done | by eapply IH].
    + destruct (ReadBoardArticleRecordsFile_returns db (BoardRecord.BoardID r))
        as [[ars [e|]] Hret]; rewrite (bind_result _ _ _ Hret) in Hres; [done|].
      apply elem_of_cons in Hin as [-> | Hin]; [|by eapply IH].
      unfold facadeIndex. by rewrite Hret.
Qed.

(** The calls of a scan whose reads all succeed. *)
Lemma scanBoards_success_calls userID index boards recs :
  (forall r, r ∈ boards -> BoardRecord.BoardID r <> "ALLPOST" ->
     result (ReadBoardArticleRecordsFile db (BoardRecord.BoardID r))
     = Returns (index (BoardRecord.BoardID r), None)) ->
  calls (scanBoards db userID boards recs) = scanCalls db boards.
Proof.
  revert recs. induction boards as [|r boards IH]; intros recs Hread; [done|].
  unfold scanCalls. simpl. fold (scanCalls db boards).
  assert (Htail : forall x, x ∈ boards -> BoardRecord.BoardID x <> "ALLPOST" ->
            result (ReadBoardArticleRecordsFile db (BoardRecord.BoardID x))
            = Returns (index (BoardRecord.BoardID x), None))
    by (intros x Hx; apply Hread; by right).
  destruct (shouldSkip (BoardRecord.BoardID r)) eqn:Hskip.
  - apply shouldSkip_true in Hskip. rewrite decide_True by done. by apply IH.
  - apply shouldSkip_false in Hskip. rewrite decide_False by done.
    pose proof (Hread r (list_elem_of_here _ _) Hskip) as Hok.
    rewrite (bind_calls _ _ _ Hok), (ReadBoardArticleRecordsFile_success_calls _ _ Hok).
    by rewrite IH.
Qed.

(** Neither the calls of the scan nor the error it ends with depend on the
    user or on the records gathered so far. *)
Lemma scanBoards_user_independent userID1 userID2 boards recs1 recs2 :
  calls (scanBoards db userID1 boards recs1) = calls (scanBoards db userID2 boards recs2)
  /\ forall out e,
       result (scanBoards db userID1 boards recs1) = Returns (out, Some e) ->
       result (scanBoards db userID2 boards recs2) = Returns ([], Some e).
Proof.
  revert recs1 recs2. induction boards as [|r boards IH]; intros recs1 recs2; simpl.
  - split; [done | by intros out e [= _]].
  - destruct (shouldSkip (BoardRecord.BoardID r)); [apply IH|].
    destruct (ReadBoardArticleRecordsFile_returns db (BoardRecord.BoardID r))
      as [[ars [e|]] Hret];
      rewrite !(bind_result _ _ _ Hret), !(bind_calls _ _ _ Hret).
    + split; [done | by intros out e' [= _ <-]].
    + destruct (IH (scanArticles userID1 r ars recs1) (scanArticles userID2 r ars recs2))
        as [Hcalls Herr].
      split; [by rewrite Hcalls | done].
Qed.

End Scan.

(** X8: when the driver has the user-article cache but cannot resolve the
    cached path, [GetUserArticleRecordFile] returns that error with a nil
    list after this one call: the cache is not read and no board is
    scanned. *)
Theorem GetUserArticleRecordFile_cache_path_error
    (db : DB) (userID : string) (uac : UserArticleConnector) (path : string)
    (e : error) :
  asUserArticleConnector (connector db) = Some uac ->
  GetUserArticleRecordsPath uac userID = (path, Some e) ->
  GetUserArticleRecordFile db userID =
    ([CallGetUserArticleRecordsPath userID], Returns ([], Some e)).
Proof.
  intros Hcap Hpath. unfold GetUserArticleRecordFile.
  by rewrite Hcap, bind_call, Hpath.
Qed.

Lemma GetUserArticleRecordFile_cache_path_error_witness :
  ReadUserArticleRecordFile Sample.cacheNoPath "" = ([Fixture.stale], None)
  /\ GetUserArticleRecordFile (Sample.homeless None (Some Sample.cacheNoPath)) "U"
     = ([CallGetUserArticleRecordsPath "U"], Returns ([], Some Sample.noHome)).
Proof.
  split; [reflexivity|].
  by apply (GetUserArticleRecordFile_cache_path_error
              (Sample.homeless None (Some Sample.cacheNoPath)) "U"
              Sample.cacheNoPath "").
Defined.

(** X9: on the aggregation path, when the board records cannot be read,
    [GetUserArticleRecordFile] returns that error with a nil list and makes
    no call beyond the cache lookup and the failed board-records read: no
    article index is touched. *)
Theorem GetUserArticleRecordFile_board_records_error
    (db : DB) (userID : string) (boards : list BoardRecord.t) (e : error) :
  cacheUnsupportedOrEmpty db userID = true ->
  result (ReadBoardRecords db) = Returns (boards, Some e) ->
  GetUserArticleRecordFile db userID =
    (cacheCalls db userID ++ calls (ReadBoardRecords db), Returns ([], Some e)).
Proof.
  intros Hcache Hboards.
  rewrite (GetUserArticleRecordFile_falls_back db userID Hcache).
  unfold aggregate.
  rewrite (bind_result _ _ _ Hboards), (bind_calls _ _ _ Hboards). simpl.
  by rewrite app_nil_r.
Qed.

Lemma GetUserArticleRecordFile_board_records_error_witness :
  GetUserArticleRecordFile (Sample.homeless None None) "U"
  = ([CallGetBoardRecordsPath], Returns ([], Some Sample.noHome)).
Proof.
  by apply (GetUserArticleRecordFile_board_records_error
              (Sample.homeless None None) "U" []).
Defined.

(** X10: what [GetUserArticleRecordFile] returns is all or nothing, on
    every path through the cache lookup and the scan: with a non-nil error
    the list is nil. *)
Theorem GetUserArticleRecordFile_all_or_nothing
    (db : DB) (userID : string) (recs : list UserArticleRecord.t) (err : option error) :
  result (GetUserArticleRecordFile db userID) = Returns (recs, err) ->
  err <> None -> recs = [].
Proof.
  assert (Hagg : forall recs0,
            result (aggregate db userID recs0) = Returns (recs, err) ->
            err <> None -> recs = []).
  { intros recs0. unfold aggregate.
    destruct (ReadBoardRecords_returns db) as [[boards [e|]] Hret];
      rewrite (bind_result _ _ _ Hret).
    - by intros [= <- _].
    - destruct (scanBoards_all_or_nothing db userID boards recs0)
        as (out & err' & Hres & Hnil).
      rewrite Hres. by intros [= <- <-]. }
  unfold GetUserArticleRecordFile.
  destruct (asUserArticleConnector _) as [uac|]; [|apply Hagg].
  rewrite bind_call.
  destruct (GetUserArticleRecordsPath uac userID) as [path [e|]].
  { by intros [= <- _]. }
  rewrite bind_call.
  destruct (ReadUserArticleRecordFile uac path) as [cached [e|]].
  { by intros [= <- _]. }
  destruct (negb _); [|apply Hagg]. by intros [= _ <-].
Qed.

Lemma GetUserArticleRecordFile_all_or_nothing_witness :
  result (scanBoards Fixture.broken "U" [Fixture.board "A"] [])
    = Returns ([UserArticleRecord.mk "A" "Re: M.1" "U" "M.1"], None)
  /\ exists recs,
       result (GetUserArticleRecordFile Fixture.broken "U")
         = Returns (recs, Some Fixture.badFormat)
       /\ recs = [].
Proof.
  split; [reflexivity|]. exists []. split; [reflexivity|].
  by apply (GetUserArticleRecordFile_all_or_nothing Fixture.broken "U" []
              (Some Fixture.badFormat)).
Defined.

(** X11: on the aggregation path, every record [GetUserArticleRecordFile]
    returns has the requested user as its owner. *)
Theorem GetUserArticleRecordFile_owner (db : DB) (userID : string) :
  cacheUnsupportedOrEmpty db userID = true ->
  forall recs err,
    result (GetUserArticleRecordFile db userID) = Returns (recs, err) ->
    forall x, x ∈ recs -> UserArticleRecord.owner x = userID.
Proof.
  intros Hcache recs err.
  rewrite (GetUserArticleRecordFile_falls_back_result db userID Hcache).
  unfold aggregate.
  destruct (ReadBoardRecords_returns db) as [[boards [e|]] Hret];
    rewrite (bind_result _ _ _ Hret).
  - intros [= <- _] x Hx. by apply elem_of_nil in Hx.
  - intros Hres. apply Forall_forall.
    by apply (scanBoards_Forall db
                (fun x => UserArticleRecord.owner x = userID)
                userID boards [] (fun r ar H => H) (Forall_nil_2 _) recs err).
Qed.

Lemma GetUserArticleRecordFile_owner_witness :
  Fixture.article "M.2" "V" ∈ Fixture.indexOf "A"
  /\ forall x, x ∈ Fixture.postsOfU -> UserArticleRecord.owner x = "U".
Proof.
  split; [unfold Fixture.indexOf; simpl; set_solver|].
  by apply (GetUserArticleRecordFile_owner Fixture.plain "U" eq_refl
              Fixture.postsOfU None).
Defined.



(** X13: what a successful aggregation costs.  On the aggregation path,
    when the board records are read from [path] and the operation returns a
    nil error, its calls are, in order: the cache lookup, the two calls of
    the board-records read, then for each board other than ALLPOST, in
    enumeration order and once per entry, the resolution of its index path
    and the read of that path. *)
Theorem GetUserArticleRecordFile_success_calls
    (db : DB) (userID path : string) (boards : list BoardRecord.t)
    (recs : list UserArticleRecord.t) :
  cacheUnsupportedOrEmpty db userID = true ->
  GetBoardRecordsPath (connector db) = (path, None) ->
  ReadBoardRecordsFile (connector db) path = (boards, None) ->
  result (GetUserArticleRecordFile db userID) = Returns (recs, None) ->
  calls (GetUserArticleRecordFile db userID) =
    cacheCalls db userID
      ++ [CallGetBoardRecordsPath; CallReadBoardRecordsFile path]
      ++ scanCalls db boards.
Proof.
  intros Hcache Hpath Hread.
  assert (Hboards : ReadBoardRecords db =
            ([CallGetBoardRecordsPath; CallReadBoardRecordsFile path],
             Returns (boards, None))).
  { unfold ReadBoardRecords. by rewrite bind_call, Hpath, bind_call, Hread. }
  assert (Hres : result (ReadBoardRecords db) = Returns (boards, None))
    by (by rewrite Hboards).
  rewrite (GetUserArticleRecordFile_falls_back_result db userID Hcache).
  rewrite (GetUserArticleRecordFile_falls_back_calls db userID Hcache).
  rewrite (aggregate_scan_result db userID boards [] Hres).
  rewrite (aggregate_scan_calls db userID boards [] Hres).
  intros Hscan. rewrite Hboards. unfold calls at 1. simpl fst.
  pose proof (scanBoards_success_reads db userID boards [] recs Hscan) as Hreads.
  by rewrite (scanBoards_success_calls db userID (facadeIndex db) boards [] Hreads).
Qed.

Lemma GetUserArticleRecordFile_success_calls_witness :
  calls (GetUserArticleRecordFile Fixture.cachedEmpty "U") =
    [CallGetUserArticleRecordsPath "U";
     CallReadUserArticleRecordFile "/home/bbs/home/U/.posts";
     CallGetBoardRecordsPath; CallReadBoardRecordsFile "/home/bbs/.BRD";
     CallGetBoardArticleRecordsPath "A"; CallReadArticleRecordsFile (Fixture.dirOf "A");
     CallGetBoardArticleRecordsPath "B"; CallReadArticleRecordsFile (Fixture.dirOf "B");
     CallGetBoardArticleRecordsPath "C"; CallReadArticleRecordsFile (Fixture.dirOf "C")].
Proof.
  by rewrite (GetUserArticleRecordFile_success_calls Fixture.cachedEmpty "U"
                "/home/bbs/.BRD" Fixture.boards Fixture.postsOfU).
Defined.

(** X14: a decode error that reads as not-found does not break the
    aggregation.  On the aggregation path, when the board records are read
    and, for every board other than ALLPOST, the index path resolves and the
    decode either succeeds or fails with an error whose text contains "no
    such file or directory", [GetUserArticleRecordFile] returns a nil error
    and the spec's list over the decoded indices: a board whose decode
    failed in this way contributes nothing and the scan goes on. *)
Theorem GetUserArticleRecordFile_missing_index_skipped
    (db : DB) (userID : string) (boards : list BoardRecord.t) :
  cacheUnsupportedOrEmpty db userID = true ->
  result (ReadBoardRecords db) = Returns (boards, None) ->
  (forall r, r ∈ boards -> BoardRecord.BoardID r <> "ALLPOST" ->
     exists path,
       GetBoardArticleRecordsPath (connector db) (BoardRecord.BoardID r) = (path, None)
       /\ (snd (ReadArticleRecordsFile (connector db) path) = None
           \/ exists e a b,
                snd (ReadArticleRecordsFile (connector db) path) = Some e
                /\ Error e = a +:+ "no such file or directory" +:+ b)) ->
  result (GetUserArticleRecordFile db userID)
  = Returns (synthesized userID (decodedIndex db) boards, None).
Proof.
  intros Hcache Hboards Husable.
  rewrite (GetUserArticleRecordFile_falls_back_result db userID Hcache).
  rewrite (aggregate_scan_result db userID boards [] Hboards).
  apply (scanBoards_complete db userID (decodedIndex db) boards []).
  intros r Hin Hne. destruct (Husable r Hin Hne) as (path & Hpath & Hread).
  by apply (ReadBoardArticleRecordsFile_text_tolerated db _ path).
Qed.

Lemma GetUserArticleRecordFile_missing_index_skipped_witness :
  (ReadArticleRecordsFile (connector Sample.withDamaged) (Fixture.dirOf "E")
     = ([], Some Fixture.damaged)
   /\ NotExist Fixture.damaged = false)
  /\ result (GetUserArticleRecordFile Sample.withDamaged "U")
     = Returns (Fixture.postsOfU, None).
Proof.
  split; [by split|].
  rewrite (GetUserArticleRecordFile_missing_index_skipped Sample.withDamaged "U"
             [Fixture.board "A"; Fixture.board "E"; Fixture.board "B"]);
    [reflexivity | reflexivity | reflexivity |].
  intros r Hin _.
  repeat (apply elem_of_cons in Hin as [-> | Hin]).
  - exists (Fixture.dirOf "A"). split; [reflexivity | by left].
  - exists (Fixture.dirOf "E"). split; [reflexivity|]. right.
    by exists Fixture.damaged, "bad archive: ", " entry".
  - exists (Fixture.dirOf "B"). split; [reflexivity | by left].
  - by apply elem_of_nil in Hin.
Defined.

(** X15: the board scan treats ALLPOST entries as if they were not there:
    it makes the same calls and ends the same way on the board list and on
    the list with every ALLPOST entry removed, wherever they stand and
    however many there are. *)
Theorem scanBoards_ignores_ALLPOST
    (db : DB) (userID : string) (boards : list BoardRecord.t)
    (recs : list UserArticleRecord.t) :
  scanBoards db userID boards recs =
  scanBoards db userID
    (filter (fun r => BoardRecord.BoardID r <> "ALLPOST") boards) recs.
Proof.
  revert recs. induction boards as [|r boards IH]; intros recs; [done|].
  rewrite filter_cons. simpl.
  destruct (shouldSkip (BoardRecord.BoardID r)) eqn:Hskip.
  - apply shouldSkip_true in Hskip. rewrite decide_False by (by intros []).
    apply IH.
  - pose proof Hskip as Hne. apply shouldSkip_false in Hne.
    rewrite decide_True by done. simpl. rewrite Hskip.
    unfold bind. destruct (ReadBoardArticleRecordsFile db _) as [tr [[ars [e|]]|p]];
      [done | | done].
    by rewrite IH.
Qed.

(** X16: what the aggregation reads does not depend on whose posts are
    asked for.  For a driver without the user-article cache, two users cause
    the same calls in the same order, and when the operation fails for one
    it fails with the same error for the other. *)
Theorem GetUserArticleRecordFile_user_independent
    (db : DB) (userID1 userID2 : string) :
  asUserArticleConnector (connector db) = None ->
  calls (GetUserArticleRecordFile db userID1) = calls (GetUserArticleRecordFile db userID2)
  /\ forall recs e,
       result (GetUserArticleRecordFile db userID1) = Returns (recs, Some e) ->
       result (GetUserArticleRecordFile db userID2) = Returns ([], Some e).
Proof.
  intros Hcap. unfold GetUserArticleRecordFile. rewrite Hcap. unfold aggregate.
  destruct (ReadBoardRecords_returns db) as [[boards [e|]] Hret];
    rewrite !(bind_result _ _ _ Hret), !(bind_calls _ _ _ Hret).
  - split; [done | by intros recs e' [= _ <-]].
  - destruct (scanBoards_user_independent db userID1 userID2 boards [] [])
      as [Hcalls Herr].
    split; [by rewrite Hcalls | done].
Qed.

Lemma GetUserArticleRecordFile_user_independent_witness :
  calls (GetUserArticleRecordFile Fixture.broken "U")
    = calls (GetUserArticleRecordFile Fixture.broken "nobody")
  /\ result (GetUserArticleRecordFile Fixture.broken "nobody")
     = Returns ([], Some Fixture.badFormat).
Proof.
  destruct (GetUserArticleRecordFile_user_independent Fixture.broken "U" "nobody" eq_refl)
    as [Hcalls Herr].
  split; [exact Hcalls|]. by apply (Herr []).
Defined.

(** ** Board-record mutation *)

(** X17: with the [WriteBoardConnector] capability the board mutations do not
    panic.  [AddBoardRecord] writes nothing when the board-records path does
    not resolve and returns that error; when it resolves, the driver is
    asked once to append the record, unchanged, to the resolved file, and
    its answer is returned.  [NewBoardRecord] hands the arguments to the
    driver and returns its answer. *)
Theorem WriteBoard_with_capability (db : DB) (w : WriteBoardConnector) :
  asWriteBoardConnector (connector db) = Some w ->
  (forall brd path e,
     GetBoardRecordsPath (connector db) = (path, Some e) ->
     AddBoardRecord db brd = ([CallGetBoardRecordsPath], Returns (Some e)))
  /\ (forall brd path,
      GetBoardRecordsPath (connector db) = (path, None) ->
      AddBoardRecord db brd =
        ([CallGetBoardRecordsPath; CallAddBoardRecordFileRecord path brd],
         Returns (wbAddBoardRecordFileRecord w path brd)))
  /\ (forall args,
      NewBoardRecord db args =
        ([CallNewBoardRecord args], Returns (wbNewBoardRecord w args))).
Proof.
  intros Hcap. split; [|split].
  - intros brd path e Hpath. unfold AddBoardRecord. by rewrite bind_call, Hpath.
  - intros brd path Hpath. by apply AddBoardRecord_with_capability.
  - intros args. unfold NewBoardRecord, assertWriteBoardConnector. by rewrite Hcap.
Qed.

Lemma WriteBoard_with_capability_witness :
  AddBoardRecord (Sample.homeless (Some Sample.writer) None) (Fixture.board "Z")
    = ([CallGetBoardRecordsPath], Returns (Some Sample.noHome))
  /\ AddBoardRecord Sample.writable (Fixture.board "Z")
     = ([CallGetBoardRecordsPath;
         CallAddBoardRecordFileRecord "/home/bbs/.BRD" (Fixture.board "Z")],
        Returns None)
  /\ result (NewBoardRecord Sample.writable {["id" := AnyString "Z"]})
     = Returns (Fixture.board "Z", None).
Proof.
  split; [|split].
  - by apply (proj1 (WriteBoard_with_capability
                       (Sample.homeless (Some Sample.writer) None) Sample.writer eq_refl)
                (Fixture.board "Z") "").
  - by apply (proj1 (proj2 (WriteBoard_with_capability Sample.writable Sample.writer eq_refl))
                (Fixture.board "Z") "/home/bbs/.BRD").
  - by rewrite (proj2 (proj2 (WriteBoard_with_capability Sample.writable Sample.writer eq_refl))).
Defined.

(** ** Users, favorites and raw files *)

Lemma rbind_rcall {A B} (c : RestCall) (v : A) (k : A -> R B) :
  rbind (rcall c v) k = (c :: fst (k v), snd (k v)).
Proof. unfold rbind, rcall. by destruct (k v). Qed.

(** X19: [ReadUserRecords] returns the error of the path resolution without
    reading any file; the error of the read, a not-found error included,
    with a nil list; and otherwise the user records the driver decoded,
    unchanged. *)
Theorem ReadUserRecords_outcomes (c : RestConnector) :
  (forall path e,
     GetUserRecordsPath c = (path, Some e) ->
     ReadUserRecords c = ([CallGetUserRecordsPath], ([], Some e)))
  /\ (forall path recs e,
      GetUserRecordsPath c = (path, None) ->
      ReadUserRecordsFile c path = (recs, Some e) ->
      ReadUserRecords c =
        ([CallGetUserRecordsPath; CallReadUserRecordsFile path], ([], Some e)))
  /\ (forall path recs,
      GetUserRecordsPath c = (path, None) ->
      ReadUserRecordsFile c path = (recs, None) ->
      ReadUserRecords c =
        ([CallGetUserRecordsPath; CallReadUserRecordsFile path], (recs, None))).
Proof.
  unfold ReadUserRecords. split; [|split].
  - intros path e Hpath. by rewrite rbind_rcall, Hpath.
  - intros path recs e Hpath Hread. by rewrite rbind_rcall, Hpath, rbind_rcall, Hread.
  - intros path recs Hpath Hread. by rewrite rbind_rcall, Hpath, rbind_rcall, Hread.
Qed.

Lemma ReadUserRecords_outcomes_witness :
  ReadUserRecords Sample.restNoPasswd = ([CallGetUserRecordsPath], ([], Some Sample.noHome))
  /\ map UserRecord.UserID (fst (snd (ReadUserRecords Sample.rest))) = ["SYSOP"; "U"].
Proof.
  split.
  - by apply (proj1 (ReadUserRecords_outcomes Sample.restNoPasswd) "").
  - by rewrite (proj2 (proj2 (ReadUserRecords_outcomes Sample.rest)) "/home/bbs/.PASSWDS"
                  [Sample.user "SYSOP"; Sample.user "U"]).
Defined.

(** X20: [ReadUserFavoriteRecords] returns the error of the path resolution
    without reading any file; the error of the read, also when the user
    simply has no favorites file, with a nil list; and otherwise the
    favorites the driver decoded, unchanged, folders with their children. *)
Theorem ReadUserFavoriteRecords_outcomes (c : RestConnector) (userID : string) :
  (forall path e,
     GetUserFavoriteRecordsPath c userID = (path, Some e) ->
     ReadUserFavoriteRecords c userID =
       ([CallGetUserFavoriteRecordsPath userID], ([], Some e)))
  /\ (forall path recs e,
      GetUserFavoriteRecordsPath c userID = (path, None) ->
      ReadUserFavoriteRecordsFile c path = (recs, Some e) ->
      ReadUserFavoriteRecords c userID =
        ([CallGetUserFavoriteRecordsPath userID; CallReadUserFavoriteRecordsFile path],
         ([], Some e)))
  /\ (forall path recs,
      GetUserFavoriteRecordsPath c userID = (path, None) ->
      ReadUserFavoriteRecordsFile c path = (recs, None) ->
      ReadUserFavoriteRecords c userID =
        ([CallGetUserFavoriteRecordsPath userID; CallReadUserFavoriteRecordsFile path],
         (recs, None))).
Proof.
  unfold ReadUserFavoriteRecords. split; [|split].
  - intros path e Hpath. by rewrite rbind_rcall, Hpath.
  - intros path recs e Hpath Hread. by rewrite rbind_rcall, Hpath, rbind_rcall, Hread.
  - intros path recs Hpath Hread. by rewrite rbind_rcall, Hpath, rbind_rcall, Hread.
Qed.

Lemma ReadUserFavoriteRecords_outcomes_witness :
  snd (ReadUserFavoriteRecords Sample.rest "") = ([], Some (Errorf "empty user id"))
  /\ (isNotFound (Fixture.enoent "/home/bbs/home/V/.fav") = true
      /\ snd (ReadUserFavoriteRecords Sample.rest "V")
         = ([], Some (Fixture.enoent "/home/bbs/home/V/.fav")))
  /\ snd (ReadUserFavoriteRecords Sample.rest "U") = (Sample.favorites, None).
Proof.
  split; [|split; [split; [reflexivity|]|]].
  - by rewrite (proj1 (ReadUserFavoriteRecords_outcomes Sample.rest "") "" (Errorf "empty user id")).
  - by rewrite (proj1 (proj2 (ReadUserFavoriteRecords_outcomes Sample.rest "V"))
                  "/home/bbs/home/V/.fav" [] (Fixture.enoent "/home/bbs/home/V/.fav")).
  - by rewrite (proj2 (proj2 (ReadUserFavoriteRecords_outcomes Sample.rest "U"))
                  "/home/bbs/home/U/.fav" Sample.favorites).
Defined.

(** X21: [ReadBoardArticleFile] returns the error of the path resolution
    without reading any file; the error of the read, a not-found error
    included, with no bytes; and otherwise the bytes of the file as the
    driver read them. *)
Theorem ReadBoardArticleFile_outcomes (c : RestConnector) (boardID filename : string) :
  (forall path e,
     GetBoardArticleFilePath c boardID filename = (path, Some e) ->
     ReadBoardArticleFile c boardID filename =
       ([CallGetBoardArticleFilePath boardID filename], ([], Some e)))
  /\ (forall path bytes e,
      GetBoardArticleFilePath c boardID filename = (path, None) ->
      ConnReadBoardArticleFile c path = (bytes, Some e) ->
      ReadBoardArticleFile c boardID filename =
        ([CallGetBoardArticleFilePath boardID filename; CallReadBoardArticleFile path],
         ([], Some e)))
  /\ (forall path bytes,
      GetBoardArticleFilePath c boardID filename = (path, None) ->
      ConnReadBoardArticleFile c path = (bytes, None) ->
      ReadBoardArticleFile c boardID filename =
        ([CallGetBoardArticleFilePath boardID filename; CallReadBoardArticleFile path],
         (bytes, None))).
Proof.
  unfold ReadBoardArticleFile. split; [|split].
  - intros path e Hpath. by rewrite rbind_rcall, Hpath.
  - intros path bytes e Hpath Hread. by rewrite rbind_rcall, Hpath, rbind_rcall, Hread.
  - intros path bytes Hpath Hread. by rewrite rbind_rcall, Hpath, rbind_rcall, Hread.
Qed.

Lemma ReadBoardArticleFile_outcomes_witness :
  snd (ReadBoardArticleFile Sample.rest "A" "") = ([], Some (Errorf "empty file name"))
  /\ snd (ReadBoardArticleFile Sample.rest "A" "M.7")
     = ([], Some (Fixture.enoent "/home/bbs/boards/A/M.7"))
  /\ snd (ReadBoardArticleFile Sample.rest "A" "M.1") = ([Byte.x68; Byte.x69], None).
Proof.
  split; [|split].
  - by rewrite (proj1 (ReadBoardArticleFile_outcomes Sample.rest "A" "") ""
                  (Errorf "empty file name")).
  - by rewrite (proj1 (proj2 (ReadBoardArticleFile_outcomes Sample.rest "A" "M.7"))
                  "/home/bbs/boards/A/M.7" [] (Fixture.enoent "/home/bbs/boards/A/M.7")).
  - by rewrite (proj2 (proj2 (ReadBoardArticleFile_outcomes Sample.rest "A" "M.1"))
                  "/home/bbs/boards/A/M.1" [Byte.x68; Byte.x69]).
Defined.

(** X22: [ReadBoardTreasureFile] resolves the path from the board, the
    folder chain and the file name and reads it with the driver's raw
    article read, the one [ReadBoardArticleFile] uses.  It returns the error
    of the path resolution without reading any file; the error of the read
    with no bytes; and otherwise the bytes as the driver read them. *)
Theorem ReadBoardTreasureFile_outcomes
    (c : RestConnector) (boardID : string) (treasuresID : list string)
    (filename : string) :
  (forall path e,
     GetBoardTreasureFilePath c boardID treasuresID filename = (path, Some e) ->
     ReadBoardTreasureFile c boardID treasuresID filename =
       ([CallGetBoardTreasureFilePath boardID treasuresID filename], ([], Some e)))
  /\ (forall path bytes e,
      GetBoardTreasureFilePath c boardID treasuresID filename = (path, None) ->
      ConnReadBoardArticleFile c path = (bytes, Some e) ->
      ReadBoardTreasureFile c boardID treasuresID filename =
        ([CallGetBoardTreasureFilePath boardID treasuresID filename;
          CallReadBoardArticleFile path],
         ([], Some e)))
  /\ (forall path bytes,
      GetBoardTreasureFilePath c boardID treasuresID filename = (path, None) ->
      ConnReadBoardArticleFile c path = (bytes, None) ->
      ReadBoardTreasureFile c boardID treasuresID filename =
        ([CallGetBoardTreasureFilePath boardID treasuresID filename;
          CallReadBoardArticleFile path],
         (bytes, None))).
Proof.
  unfold ReadBoardTreasureFile. split; [|split].
  - intros path e Hpath. by rewrite rbind_rcall, Hpath.
  - intros path bytes e Hpath Hread. by rewrite rbind_rcall, Hpath, rbind_rcall, Hread.
  - intros path bytes Hpath Hread. by rewrite rbind_rcall, Hpath, rbind_rcall, Hread.
Qed.

Lemma ReadBoardTreasureFile_outcomes_witness :
  snd (ReadBoardTreasureFile Sample.rest "A" ["x"] "") = ([], Some (Errorf "empty file name"))
  /\ snd (ReadBoardTreasureFile Sample.rest "A" ["x"; "y"] "M.0")
     = ([], Some (Fixture.enoent "/home/bbs/man/boards/A/x/y/M.0"))
  /\ ReadBoardTreasureFile Sample.rest "A" ["x"] "M.0"
     = ([CallGetBoardTreasureFilePath "A" ["x"] "M.0";
         CallReadBoardArticleFile "/home/bbs/man/boards/A/x/M.0"],
        ([Byte.x6f; Byte.x6b], None)).
Proof.
  split; [|split].
  - by rewrite (proj1 (ReadBoardTreasureFile_outcomes Sample.rest "A" ["x"] "") ""
                  (Errorf "empty file name")).
  - by rewrite (proj1 (proj2 (ReadBoardTreasureFile_outcomes Sample.rest "A" ["x"; "y"] "M.0"))
                  "/home/bbs/man/boards/A/x/y/M.0" []
                  (Fixture.enoent "/home/bbs/man/boards/A/x/y/M.0")).
  - by rewrite (proj2 (proj2 (ReadBoardTreasureFile_outcomes Sample.rest "A" ["x"] "M.0"))
                  "/home/bbs/man/boards/A/x/M.0" [Byte.x6f; Byte.x6b]).
Defined.

(** ** No deduplication *)

Lemma synthesized_app userID index boards1 boards2 :
  synthesized userID index (boards1 ++ boards2) =
    synthesized userID index boards1 ++ synthesized userID index boards2.
Proof. unfold synthesized. by rewrite map_app, concat_app. Qed.

(** X23: the aggregation removes no duplicates.  On the aggregation path,
    when the board records list the same boards twice over and every index
    is read without error, [GetUserArticleRecordFile] returns every record
    of the single listing twice, the second run after the first. *)
Theorem GetUserArticleRecordFile_keeps_duplicates
    (db : DB) (userID : string) (boards : list BoardRecord.t)
    (index : string -> list ArticleRecord.t) :
  cacheUnsupportedOrEmpty db userID = true ->
  result (ReadBoardRecords db) = Returns (boards ++ boards, None) ->
  (forall r, r ∈ boards -> BoardRecord.BoardID r <> "ALLPOST" ->
     result (ReadBoardArticleRecordsFile db (BoardRecord.BoardID r))
     = Returns (index (BoardRecord.BoardID r), None)) ->
  result (GetUserArticleRecordFile db userID)
  = Returns (synthesized userID index boards ++ synthesized userID index boards, None).
Proof.
  intros Hcache Hboards Hindex.
  rewrite (GetUserArticleRecordFile_falls_back_result db userID Hcache).
  rewrite (aggregate_scan_result db userID _ [] Hboards).
  rewrite <- synthesized_app.
  apply (scanBoards_complete db userID index (boards ++ boards) []).
  intros r Hin. apply Hindex. apply elem_of_app in Hin. by destruct Hin.
Qed.

Lemma GetUserArticleRecordFile_keeps_duplicates_witness :
  result (GetUserArticleRecordFile Sample.doubled "U")
  = Returns ([UserArticleRecord.mk "B" "Re: M.3" "U" "M.3";
              UserArticleRecord.mk "B" "Re: M.3" "U" "M.3"], None).
Proof.
  rewrite (GetUserArticleRecordFile_keeps_duplicates Sample.doubled "U"
             [Fixture.board "B"] Fixture.indexOf);
    [reflexivity | reflexivity | reflexivity |].
  intros r Hin _. apply list_elem_of_singleton in Hin as ->. reflexivity.
Defined.
